(** * Research-platform backend (app.py): a shallow embedding

    The Flask handlers of [app.py] are embedded as functions in a small
    state-and-exception monad over the persistent state of the service
    (the two tables, the upload directory, the trace of calls sent to the
    generative-text provider).  Everything the handlers obtain from outside
    the process (the clock, PyPDF2, bcrypt, the token issuer, the Gemini
    and Stripe clients, failures of the disk and of the database commit) is
    a field of the record [world], over which every theorem quantifies.

    Conventions of the embedding:
    - a Python [str] is a [string]; characters are restricted to the 8-bit
      range, and [lower] is the ASCII lower-casing;
    - a handler protected by [@jwt_required()] takes the verified identity
      [int(get_jwt_identity())] as its argument [user_id];
    - a JSON request body is a dictionary with string values;
    - [db.session.add] followed by [db.session.commit] is one atomic step
      that either raises and leaves the tables as they were, or stores the
      row; a read query raises only when sqlite cannot bind its integer;
    - the disk is POSIX: a file is recorded under the path it was written
      with, and a path can be written only through directories that
      exist; the handlers create no directory but the upload directory. *)

From Stdlib Require Import ZArith List Ascii String DecimalString Sorted Permutation Lia.
From Stdlib Require DecimalZ.
From stdpp Require Import base gmap strings list sorting.

Local Open Scope Z_scope.
Local Set Warnings "-register-all".
Local Set Warnings "-abstract-large-number".

(** ** Python strings *)

Module Py.

(** The newline character of ["\n"]. *)
Definition nl : string := String "010"%char EmptyString.

(** [len(s)] *)
Definition len (s : string) : Z := Z.of_nat (String.length s).

(** [s[:n]] for a non-negative literal [n]. *)
Definition slice_to (n : nat) (s : string) : string := String.substring 0 n s.

(** [str(n)] for an integer. *)
Definition str_of_int (n : Z) : string := NilZero.string_of_int (Z.to_int n).

(** Truth value of a string: [if s:] holds for the non-empty ones. *)
Definition truthy (s : string) : bool :=
  match s with EmptyString => false | String _ _ => true end.

Definition lower_ascii (c : ascii) : ascii :=
  let n := nat_of_ascii c in
  if ((65 <=? n)%nat && (n <=? 90)%nat)%bool then ascii_of_nat (n + 32) else c.

(** [s.lower()] *)
Fixpoint lower (s : string) : string :=
  match s with
  | EmptyString => EmptyString
  | String c s' => String (lower_ascii c) (lower s')
  end.

(** [s.endswith(suffix)] *)
Definition endswith (s suffix : string) : bool :=
  let n := String.length s in
  let m := String.length suffix in
  ((m <=? n)%nat && String.eqb (String.substring (n - m) m s) suffix)%bool.

(** [s.replace(old, new)] for a non-empty [old]: the occurrences of [old]
    are found from left to right and do not overlap.  [skip] counts the
    characters of an occurrence that are still to be dropped. *)
Fixpoint replace_from (old new : string) (skip : nat) (s : string) : string :=
  match s with
  | EmptyString => EmptyString
  | String c s' =>
      match skip with
      | S k => replace_from old new k s'
      | O =>
          if String.prefix old s
          then new +:+ replace_from old new (String.length old - 1) s'
          else String c (replace_from old new 0 s')
      end
  end.

(** With an empty [old], Python puts [new] before every character and at
    the end. *)
Fixpoint intersperse (new s : string) : string :=
  match s with
  | EmptyString => new
  | String c s' => new +:+ String c (intersperse new s')
  end.

Definition replace (s old new : string) : string :=
  match old with
  | EmptyString => intersperse new s
  | String _ _ => replace_from old new 0 s
  end.

(** [sep.join(parts)] *)
Definition join (sep : string) (parts : list string) : string :=
  String.concat sep parts.

(** Exceptions: a [KeyError] of a dictionary lookup, or any other
    exception, of which only the class name and the message matter. *)
Inductive exn : Type :=
  | KeyError (key : string)
  | Exception (cls : string) (msg : string).

(** [str(e)].  A [KeyError] prints the [repr] of its key; the keys looked
    up by the handlers are the literals ['email'], ['password'] and
    ['name'], whose [repr] is the key between single quotes. *)
Definition str_of_exn (e : exn) : string :=
  match e with
  | KeyError k => "'" +:+ k +:+ "'"
  | Exception _ msg => msg
  end.

End Py.

Export Py(exn(..)).

(** ** Outcomes and the handler monad *)

Inductive outcome (A : Type) : Type :=
  | Ok (a : A)
  | Raise (e : exn).
Arguments Ok {A} a.
Arguments Raise {A} e.

#[global] Instance outcome_fmap : FMap outcome := fun A B f o =>
  match o with
  | Ok a => Ok (f a)
  | Raise e => Raise e
  end.

(** ** JSON values and responses *)

Inductive json : Type :=
  | JNull
  | JBool (b : bool)
  | JInt (n : Z)
  | JStr (s : string)
  | JList (l : list json)
  | JDict (fields : list (string * json)).

(** A nullable text column rendered by [jsonify]. *)
Definition json_of_text (o : option string) : json :=
  match o with Some s => JStr s | None => JNull end.

Record response : Type := Response { body : json; status : Z }.

(** [jsonify({'error': msg}), code] *)
Definition error_response (msg : string) (code : Z) : response :=
  Response (JDict [("error", JStr msg)]) code.

(** ** The external world *)

(** What [page.extract_text()] gives for one page. *)
Inductive page : Type :=
  | PageText (s : string)
  | PageNone
  | PageRaises (e : exn).

Definition blob : Type := list Byte.byte.

Record world : Type := World {
  (** [PyPDF2.PdfReader(file)] and its [pages], or the exception it raises *)
  PdfReader : blob -> outcome (list page);
  (** [model.generate_content(prompt).text]; the first argument is the
      number of calls made before this one *)
  generate_content : nat -> string -> outcome string;
  (** [datetime.utcnow()] read when the upload is named: the naive
      datetime, in microseconds *)
  utcnow : Z;
  (** [int(d.timestamp())] for a naive datetime [d]: the host reads [d] as
      local time, by the rules of its time zone, and goes through a float *)
  int_timestamp : Z -> Z;
  (** [datetime.utcnow()] read as the column default when a row is stored *)
  utcnow_default : Z;
  (** [datetime.isoformat()] *)
  isoformat : Z -> string;
  makedirs_error : option exn;
  (** the directories of the disk, other than the upload directory: each
      is given by its components below the working directory *)
  isdir : list string -> bool;
  (** the failure of a write through existing directories (a full disk,
      a missing permission) *)
  write_error : option exn;
  remove_error : option exn;
  commit_error : option exn;
  (** bcrypt; both calls may raise (an empty password, a malformed hash) *)
  generate_password_hash : string -> outcome string;
  check_password_hash : string -> string -> outcome bool;
  create_access_token : string -> string;
  (** [stripe.checkout.Session.create(...).url] for an email and a user id *)
  stripe_checkout_url : string -> Z -> outcome string
}.

(** ** Helper functions of app.py *)

(** The loop of [extract_text_from_pdf]: [text] is the accumulator. *)
Fixpoint extract_pages (pages : list page) (text : string) : outcome string :=
  match pages with
  | [] => Ok text
  | PageRaises e :: _ => Raise e
  | PageNone :: rest => extract_pages rest text
  | PageText extracted :: rest =>
      if Py.truthy extracted
      then extract_pages rest (text +:+ extracted +:+ Py.nl)
      else extract_pages rest text
  end.

Definition extract_text_from_pdf (w : world) (file : blob) : string :=
  match PdfReader w file with
  | Raise _ => ""
  | Ok pages =>
      match extract_pages pages "" with
      | Ok text => text
      | Raise _ => ""
      end
  end.

(** The [prompts] dictionary of [analyze_with_gemini_rest], built for the
    text already cut to its budget. *)
Definition prompts (text : string) : gmap string string :=
  <["future_work" :=
      "Suggest 4-5 specific areas for future research based on this paper:"
        +:+ Py.nl +:+ Py.nl +:+ text]>
  (<["research_gaps" :=
      "Identify 3-5 research gaps and limitations in this paper:"
        +:+ Py.nl +:+ Py.nl +:+ text]>
  (<["methodology" :=
      "Describe the research methodology used in this paper:"
        +:+ Py.nl +:+ Py.nl +:+ text]>
  (<["key_findings" :=
      "Extract and list 4-5 main findings from this research paper:"
        +:+ Py.nl +:+ Py.nl +:+ text]>
  (<["summary" :=
      "Analyze this research paper and provide a comprehensive summary in 200 words:"
        +:+ Py.nl +:+ Py.nl +:+ text]> ∅)))).

(** The character budget of the analysis input. *)
Definition TEXT_LIMIT : nat := 6 * 1000.

(** The prompt that [analyze_with_gemini_rest] hands to the model:
    [prompts.get(analysis_type, prompts["summary"])] after [text[:6000]].
    The default [prompts["summary"]] is a lookup of its own, which raises
    a [KeyError] for a missing key. *)
Definition gemini_prompt (text analysis_type : string) : outcome string :=
  let text := Py.slice_to TEXT_LIMIT text in
  match prompts text !! "summary" with
  | None => Raise (KeyError "summary")
  | Some dflt => Ok (default dflt (prompts text !! analysis_type))
  end.

(** ** Database models and the state of the service *)

Module User.
Record t : Type := mk {
  id : Z;
  email : string;
  password : string;
  name : string;
  is_premium : bool;
  premium_until : option Z;
  stripe_customer_id : option string;
  created_at : Z
}.
End User.

Module Paper.
Record t : Type := mk {
  id : Z;
  user_id : Z;
  title : string;
  filename : string;
  filepath : string;
  summary : option string;
  research_gaps : option string;
  future_work : option string;
  key_findings : option string;
  methodology : option string;
  uploaded_at : Z
}.
End Paper.

(** A part of a multipart request, as werkzeug hands it over. *)
Module FileStorage.
Record t : Type := mk { filename : string; stream : blob }.
End FileStorage.

Record state : Type := State {
  users : list User.t;            (* table [user], in row order *)
  papers : list Paper.t;          (* table [paper], in row order *)
  disk : gmap string blob;        (* the files, by the path they were written to *)
  gemini_calls : list string      (* prompts sent to the provider, oldest first *)
}.

(** Handlers run in a state monad with exceptions; the state reached when
    an exception is raised is kept, as a Python [try] keeps the effects
    that happened before the [raise]. *)
Definition M (A : Type) : Type := state -> outcome A * state.

#[global] Instance M_ret : MRet M := fun A a st => (Ok a, st).

#[global] Instance M_bind : MBind M := fun A B f m st =>
  match m st with
  | (Ok a, st') => f a st'
  | (Raise e, st') => (Raise e, st')
  end.

#[global] Instance M_throw : MThrow exn M := fun A e st => (Raise e, st).

(** [try: m except Exception as e: h e] *)
Definition try_except {A} (m : M A) (h : exn -> M A) : M A := fun st =>
  match m st with
  | (Ok a, st') => (Ok a, st')
  | (Raise e, st') => h e st'
  end.

Definition gets {A} (f : state -> A) : M A := fun st => (Ok (f st), st).
Definition modify (f : state -> state) : M unit := fun st => (Ok tt, f st).

(** An effect of the world that either raises or passes. *)
Definition may_raise (err : option exn) : M unit :=
  match err with
  | Some e => mthrow e
  | None => mret tt
  end.

Definition lift_outcome {A} (o : outcome A) : M A :=
  match o with
  | Ok a => mret a
  | Raise e => mthrow e
  end.

(** ** Queries and writes of the persistence store *)

(** [User.query.get(user_id)] *)
Definition User_get (st : state) (user_id : Z) : option User.t :=
  head (filter (fun u => User.id u = user_id) (users st)).

(** [User.query.filter_by(email=email).first()] *)
Definition User_by_email (st : state) (email : string) : option User.t :=
  head (filter (fun u => User.email u = email) (users st)).

(** [Paper.query.filter_by(user_id=user_id)] *)
Definition Paper_by_user (st : state) (user_id : Z) : list Paper.t :=
  filter (fun p => Paper.user_id p = user_id) (papers st).

(** The rows that [Paper.query.filter_by(id=paper_id, user_id=user_id).first()]
    chooses from, and the first of them. *)
Definition Paper_by_id_user (st : state) (paper_id user_id : Z) : option Paper.t :=
  head (filter (fun p => Paper.id p = paper_id /\ Paper.user_id p = user_id) (papers st)).

(** An integer of sqlite has 64 bits. *)
Definition fits_int64 (n : Z) : bool := ((- 2 ^ 63 <=? n) && (n <? 2 ^ 63))%bool.

(** sqlite can bind [n] as a key of the paper table: [n] has 64 bits, as
    has every key that the table holds, the keys being sqlite's own. *)
Definition bindable (st : state) (n : Z) : bool :=
  (fits_int64 n || bool_decide (n ∈ map Paper.id (papers st)))%bool.

(** [Paper.query.filter_by(id=paper_id, user_id=user_id).first()]: the
    query raises [OverflowError] when [paper_id] cannot be bound. *)
Definition Paper_first_by_id_user (paper_id user_id : Z) : M (option Paper.t) :=
  ok ← gets (fun st => bindable st paper_id);
  if ok : bool
  then gets (fun st => Paper_by_id_user st paper_id user_id)
  else mthrow (Exception "OverflowError" "Python int too large to convert to SQLite INTEGER").

(** The order of [order_by(Paper.uploaded_at.desc())]. *)
Definition newer_first (p q : Paper.t) : Prop :=
  Paper.uploaded_at q <= Paper.uploaded_at p.

#[global] Instance newer_first_dec p q : Decision (newer_first p q) :=
  Z_le_dec (Paper.uploaded_at q) (Paper.uploaded_at p).

(** [Paper.query.filter_by(user_id=user_id).order_by(Paper.uploaded_at.desc()).all()] *)
Definition Paper_by_user_newest_first (st : state) (user_id : Z) : list Paper.t :=
  merge_sort newer_first (Paper_by_user st user_id).

(** The integer primary key given to a new row: one more than the largest
    key of the table, 1 in an empty table. *)
Definition next_id (ids : list Z) : Z := 1 + fold_right Z.max 0 ids.

(** [db.session.add(row); db.session.commit()] for a new user; [mkrow]
    receives the primary key. *)
Definition add_user (w : world) (mkrow : Z -> User.t) : M User.t :=
  may_raise (commit_error w);;
  ids ← gets (fun st => map User.id (users st));
  let row := mkrow (next_id ids) in
  modify (fun st => State (users st ++ [row]) (papers st) (disk st) (gemini_calls st));;
  mret row.

Definition add_paper (w : world) (mkrow : Z -> Paper.t) : M Paper.t :=
  may_raise (commit_error w);;
  ids ← gets (fun st => map Paper.id (papers st));
  let row := mkrow (next_id ids) in
  modify (fun st => State (users st) (papers st ++ [row]) (disk st) (gemini_calls st));;
  mret row.

(** [db.session.delete(paper); db.session.commit()] *)
Definition drop_paper (w : world) (paper : Paper.t) : M unit :=
  may_raise (commit_error w);;
  modify (fun st =>
    State (users st) (filter (fun p => Paper.id p <> Paper.id paper) (papers st))
          (disk st) (gemini_calls st)).

(** ** The file system *)

(** Lexical resolution of a relative POSIX path, as [os.path.normpath]
    does it: the path is cut at every [/], empty components and [.] are
    dropped, and [..] removes the component before it (and is kept where
    there is none to remove). *)
Module Posix.

(** [path.split('/')] *)
Fixpoint split (path : string) : list string :=
  match path with
  | EmptyString => [""]
  | String c rest =>
      if Ascii.eqb c "/" then "" :: split rest
      else match split rest with
           | comp :: comps => String c comp :: comps
           | [] => [String c ""]
           end
  end.

(** The loop of [normpath] for a path that does not start with [/];
    [new_comps] is kept with its last component first. *)
Fixpoint resolve (comps new_comps : list string) : list string :=
  match comps with
  | [] => rev new_comps
  | comp :: rest =>
      if (String.eqb comp "" || String.eqb comp ".")%bool then resolve rest new_comps
      else if (negb (String.eqb comp "..")
               || match new_comps with
                  | [] => true
                  | last :: _ => String.eqb last ".."
                  end)%bool
      then resolve rest (comp :: new_comps)
      else resolve rest (tail new_comps)
  end.

Definition normpath (path : string) : list string := resolve (split path) [].

(** [path] names something strictly below the directory [dir]: the
    components of [dir] are a proper prefix of those of [path]. *)
Definition inside (dir path : string) : bool :=
  let d := normpath dir in
  let p := normpath path in
  (bool_decide (take (length d) p = d) && (length d <? length p)%nat)%bool.

End Posix.

(** Where the operating system finds the file of a relative path: every
    component before the last must be a directory that exists when it is
    reached, [..] leading to the parent of the directory reached so far. *)
Module Fs.

(** The parent of a directory, given by its components below the working
    directory; a leading run of [..] leads above the working directory. *)
Definition parent (cur : list string) : list string :=
  match last cur with
  | None => [".."]
  | Some c => if String.eqb c ".." then cur ++ [".."] else removelast cur
  end.

Fixpoint walk (isdir : list string -> bool) (dirs cur : list string)
    : option (list string) :=
  match dirs with
  | [] => Some cur
  | c :: rest =>
      if (String.eqb c "" || String.eqb c ".")%bool then walk isdir rest cur
      else if String.eqb c ".." then walk isdir rest (parent cur)
      else if isdir (cur ++ [c]) then walk isdir rest (cur ++ [c])
      else None
  end.

(** The place of the file that [open(path, 'wb')] creates or truncates,
    or [None] when a directory on the way does not exist or the last
    component names no file. *)
Definition locate (isdir : list string -> bool) (path : string) : option (list string) :=
  let comps := Posix.split path in
  match last comps with
  | None => None
  | Some name =>
      if (String.eqb name "" || String.eqb name "." || String.eqb name "..")%bool
      then None
      else
        match walk isdir (removelast comps) [] with
        | Some cur => if isdir (cur ++ [name]) then None else Some (cur ++ [name])
        | None => None
        end
  end.


End Fs.


(** [os.path.join(a, b)] on a POSIX system. *)
Definition path_join (a b : string) : string :=
  if String.prefix "/" b then b
  else if (String.eqb a "" || Py.endswith a "/")%bool then a +:+ b
  else a +:+ "/" +:+ b.

Definition UPLOAD_FOLDER : string := "uploads".

(** The directories at the time of the save: the upload directory, which
    [os.makedirs] has just ensured, and those of the world. *)
Definition directory (w : world) (dir : list string) : bool :=
  (bool_decide (dir = [UPLOAD_FOLDER]) || isdir w dir)%bool.

(** The exception that [file.save(filepath)] raises, if any: it opens the
    path for writing, which fails when a directory of the path does not
    exist, and may fail in writing. *)
Definition save_error (w : world) (filepath : string) : option exn :=
  match Fs.locate (directory w) filepath with
  | None =>
      Some (Exception "FileNotFoundError"
              ("[Errno 2] No such file or directory: '" +:+ filepath +:+ "'"))
  | Some _ => write_error w
  end.
Arguments save_error : simpl never.

(** [file.save(filepath)] *)
Definition save (w : world) (file : FileStorage.t) (filepath : string) : M unit :=
  may_raise (save_error w filepath);;
  modify (fun st =>
    State (users st) (papers st)
          (<[filepath := FileStorage.stream file]> (disk st)) (gemini_calls st)).

(** [open(filepath, 'rb')], read to the end. *)
Definition open_rb (filepath : string) : M blob :=
  content ← gets (fun st => disk st !! filepath);
  match content with
  | Some b => mret b
  | None => mthrow (Exception "FileNotFoundError" ("[Errno 2] No such file or directory: '" +:+ filepath +:+ "'"))
  end.

(** [os.remove(filepath)] *)
Definition remove (w : world) (filepath : string) : M unit :=
  may_raise (remove_error w);;
  modify (fun st =>
    State (users st) (papers st) (delete filepath (disk st)) (gemini_calls st)).

(** ** The analysis adapter *)

(** [analyze_with_gemini_rest(text, analysis_type)].  The prompt is built
    before the [try]; the call is put on the trace; a failure of the
    provider becomes the returned text. *)
Definition analyze_with_gemini_rest (w : world) (text analysis_type : string) : M string :=
  prompt ← lift_outcome (gemini_prompt text analysis_type);
  n ← gets (fun st => length (gemini_calls st));
  modify (fun st => State (users st) (papers st) (disk st) (gemini_calls st ++ [prompt]));;
  match generate_content w n prompt with
  | Ok generated => mret generated
  | Raise e => mret ("Error: " +:+ Py.str_of_exn e)
  end.

(** The dictionary returned by [analyze_paper_with_ai]; its five keys are
    fixed, so it is a record. *)
Record analysis : Type := Analysis {
  a_summary : string;
  a_key_findings : string;
  a_methodology : string;
  a_research_gaps : string;
  a_future_work : string
}.

Definition NO_TEXT : string := "Error: Could not extract text from PDF".

(** [not text or len(text) < 100] *)
Definition too_short (text : string) : bool :=
  (negb (Py.truthy text) || (Py.len text <? 100))%bool.

Definition analyze_paper_with_ai (w : world) (text : string) : M analysis :=
  if too_short text
  then mret (Analysis NO_TEXT NO_TEXT NO_TEXT NO_TEXT NO_TEXT)
  else
    s ← analyze_with_gemini_rest w text "summary";
    k ← analyze_with_gemini_rest w text "key_findings";
    m ← analyze_with_gemini_rest w text "methodology";
    g ← analyze_with_gemini_rest w text "research_gaps";
    f ← analyze_with_gemini_rest w text "future_work";
    mret (Analysis s k m g f).

(** ** Authentication routes *)

(** [data[key]] on the request's JSON dictionary *)
Definition item (data : gmap string string) (key : string) : M string :=
  match data !! key with
  | Some v => mret v
  | None => mthrow (KeyError key)
  end.

(** The ['user'] object of the signup and login responses. *)
Definition user_json (u : User.t) : json :=
  JDict [("id", JInt (User.id u)); ("email", JStr (User.email u));
         ("name", JStr (User.name u)); ("is_premium", JBool (User.is_premium u))].

(** The [try] block of [signup]. *)
Definition signup_try (w : world) (data : gmap string string) : M response :=
  email ← item data "email";
  existing ← gets (fun st => User_by_email st email);
  match existing with
  | Some _ => mret (error_response "Email already exists" 400)
  | None =>
      password ← item data "password";
      hashed_password ← lift_outcome (generate_password_hash w password);
      name ← item data "name";
      new_user ← add_user w (fun id =>
        User.mk id email hashed_password name false None None (utcnow_default w));
      let access_token := create_access_token w (Py.str_of_int (User.id new_user)) in
      mret (Response (JDict [("message", JStr "User created successfully");
                             ("access_token", JStr access_token);
                             ("user", user_json new_user)]) 201)
  end.

(** [except Exception as e]: the response carries [str(e)].  The
    [db.session.rollback()] of [signup] has nothing to undo, a failed
    commit having stored nothing. *)
Definition internal_error (e : exn) : M response :=
  mret (error_response (Py.str_of_exn e) 500).

Definition signup (w : world) (data : gmap string string) : M response :=
  try_except (signup_try w data) internal_error.

Definition login_try (w : world) (data : gmap string string) : M response :=
  email ← item data "email";
  found ← gets (fun st => User_by_email st email);
  let invalid := mret (error_response "Invalid credentials" 401) in
  match found with
  | None => invalid
  | Some user =>
      password ← item data "password";
      matches ← lift_outcome (check_password_hash w (User.password user) password);
      if matches : bool
      then
        let access_token := create_access_token w (Py.str_of_int (User.id user)) in
        mret (Response (JDict [("access_token", JStr access_token);
                               ("user", user_json user)]) 200)
      else invalid
  end.

Definition login (w : world) (data : gmap string string) : M response :=
  try_except (login_try w data) internal_error.

Definition get_user_try (w : world) (user_id : Z) : M response :=
  found ← gets (fun st => User_get st user_id);
  match found with
  | None => mret (error_response "User not found" 404)
  | Some user =>
      mret (Response (JDict [("id", JInt (User.id user)); ("email", JStr (User.email user));
                             ("name", JStr (User.name user));
                             ("is_premium", JBool (User.is_premium user));
                             ("premium_until",
                              match User.premium_until user with
                              | Some t => JStr (isoformat w t)
                              | None => JNull
                              end)]) 200)
  end.

Definition get_user (w : world) (user_id : Z) : M response :=
  try_except (get_user_try w user_id) internal_error.

(** ** Paper routes *)

(** [p.summary[:200] + '...' if p.summary and len(p.summary) > 200 else p.summary] *)
Definition list_summary (summary : option string) : option string :=
  match summary with
  | Some s =>
      if (Py.truthy s && (200 <? Py.len s))%bool
      then Some (Py.slice_to 200 s +:+ "...")
      else summary
  | None => None
  end.

(** One entry of the listing. *)
Definition paper_entry (w : world) (p : Paper.t) : json :=
  JDict [("id", JInt (Paper.id p)); ("title", JStr (Paper.title p));
         ("filename", JStr (Paper.filename p));
         ("uploaded_at", JStr (isoformat w (Paper.uploaded_at p)));
         ("summary", json_of_text (list_summary (Paper.summary p)))].

Definition get_papers_try (w : world) (user_id : Z) : M response :=
  papers ← gets (fun st => Paper_by_user_newest_first st user_id);
  mret (Response (JList (map (paper_entry w) papers)) 200).

Definition get_papers (w : world) (user_id : Z) : M response :=
  try_except (get_papers_try w user_id) internal_error.

(** The full record of the single-paper view. *)
Definition paper_json (w : world) (paper : Paper.t) : json :=
  JDict [("id", JInt (Paper.id paper)); ("title", JStr (Paper.title paper));
         ("filename", JStr (Paper.filename paper));
         ("uploaded_at", JStr (isoformat w (Paper.uploaded_at paper)));
         ("summary", json_of_text (Paper.summary paper));
         ("key_findings", json_of_text (Paper.key_findings paper));
         ("methodology", json_of_text (Paper.methodology paper));
         ("research_gaps", json_of_text (Paper.research_gaps paper));
         ("future_work", json_of_text (Paper.future_work paper))].

Definition get_paper_try (w : world) (user_id paper_id : Z) : M response :=
  found ← Paper_first_by_id_user paper_id user_id;
  match found with
  | None => mret (error_response "Paper not found" 404)
  | Some paper => mret (Response (paper_json w paper) 200)
  end.

Definition get_paper (w : world) (user_id paper_id : Z) : M response :=
  try_except (get_paper_try w user_id paper_id) internal_error.

Definition delete_paper_try (w : world) (user_id paper_id : Z) : M response :=
  found ← Paper_first_by_id_user paper_id user_id;
  match found with
  | None => mret (error_response "Paper not found" 404)
  | Some paper =>
      present ← gets (fun st => bool_decide (is_Some (disk st !! Paper.filepath paper)));
      (if present : bool then remove w (Paper.filepath paper) else mret tt);;
      drop_paper w paper;;
      mret (Response (JDict [("message", JStr "Paper deleted successfully")]) 200)
  end.

Definition delete_paper (w : world) (user_id paper_id : Z) : M response :=
  try_except (delete_paper_try w user_id paper_id) internal_error.

(** [int(datetime.utcnow().timestamp())]: the integer that the host
    gives for the naive clock reading. *)
Definition unix_seconds (w : world) : Z := int_timestamp w (utcnow w).

(** [f"{user_id}_{int(timestamp)}_{file.filename}"] *)
Definition safe_filename (w : world) (user_id : Z) (filename : string) : string :=
  Py.str_of_int user_id +:+ "_" +:+ Py.str_of_int (unix_seconds w) +:+ "_" +:+ filename.

(** The path the upload is written to. *)
Definition upload_path (w : world) (user_id : Z) (filename : string) : string :=
  path_join UPLOAD_FOLDER (safe_filename w user_id filename).

Definition QUOTA_MESSAGE : string :=
  "Free users can only upload 3 papers. Upgrade to premium!".

(** The [try] block of [upload_paper]; [files] is [request.files]. *)
Definition upload_paper_try (w : world) (user_id : Z)
    (files : gmap string FileStorage.t) : M response :=
  found ← gets (fun st => User_get st user_id);
  match found with
  | None => mret (error_response "User not found" 404)
  | Some user =>
      user_papers ← gets (fun st => Z.of_nat (length (Paper_by_user st user_id)));
      if (negb (User.is_premium user) && (3 <=? user_papers))%bool
      then mret (error_response QUOTA_MESSAGE 403)
      else
        match files !! "file" with
        | None => mret (error_response "No file provided" 400)
        | Some file =>
            if String.eqb (FileStorage.filename file) ""
            then mret (error_response "No file selected" 400)
            else if negb (Py.endswith (Py.lower (FileStorage.filename file)) ".pdf")
            then mret (error_response "Only PDF files are allowed" 400)
            else
              may_raise (makedirs_error w);;
              let filepath := upload_path w user_id (FileStorage.filename file) in
              save w file filepath;;
              f ← open_rb filepath;
              let text := extract_text_from_pdf w f in
              if too_short text
              then mret (error_response "Could not extract text from PDF" 400)
              else
                analysis ← analyze_paper_with_ai w text;
                paper ← add_paper w (fun id =>
                  Paper.mk id user_id
                    (Py.replace (FileStorage.filename file) ".pdf" "")
                    (FileStorage.filename file)
                    filepath
                    (Some (a_summary analysis))
                    (Some (a_research_gaps analysis))
                    (Some (a_future_work analysis))
                    (Some (a_key_findings analysis))
                    (Some (a_methodology analysis))
                    (utcnow_default w));
                mret (Response
                  (JDict [("message", JStr "Paper uploaded and analyzed successfully");
                          ("paper_id", JInt (Paper.id paper));
                          ("analysis",
                           JDict [("summary", json_of_text (Paper.summary paper));
                                  ("key_findings", json_of_text (Paper.key_findings paper));
                                  ("methodology", json_of_text (Paper.methodology paper));
                                  ("research_gaps", json_of_text (Paper.research_gaps paper));
                                  ("future_work", json_of_text (Paper.future_work paper))])])
                  201)
        end
  end.

Definition upload_paper (w : world) (user_id : Z)
    (files : gmap string FileStorage.t) : M response :=
  try_except (upload_paper_try w user_id files) internal_error.

(** ** Stripe route *)

Definition create_checkout_session_try (w : world) (user_id : Z) : M response :=
  found ← gets (fun st => User_get st user_id);
  match found with
  | None =>
      mthrow (Exception "AttributeError" "'NoneType' object has no attribute 'email'")
  | Some user =>
      url ← lift_outcome (stripe_checkout_url w (User.email user) user_id);
      mret (Response (JDict [("checkout_url", JStr url)]) 200)
  end.

Definition create_checkout_session (w : world) (user_id : Z) : M response :=
  try_except (create_checkout_session_try w user_id)
             (fun e => mret (error_response (Py.str_of_exn e) 400)).

(** ** Requests and their dispatch *)

Inductive request : Type :=
  | Signup (data : gmap string string)
  | Login (data : gmap string string)
  | GetUser (identity : Z)
  | GetPapers (identity : Z)
  | UploadPaper (identity : Z) (files : gmap string FileStorage.t)
  | GetPaper (identity : Z) (paper_id : Z)
  | DeletePaper (identity : Z) (paper_id : Z)
  | CreateCheckoutSession (identity : Z).

(** The [try] block of the handler a request is routed to. *)
Definition try_block (w : world) (req : request) : M response :=
  match req with
  | Signup data => signup_try w data
  | Login data => login_try w data
  | GetUser u => get_user_try w u
  | GetPapers u => get_papers_try w u
  | UploadPaper u files => upload_paper_try w u files
  | GetPaper u p => get_paper_try w u p
  | DeletePaper u p => delete_paper_try w u p
  | CreateCheckoutSession u => create_checkout_session_try w u
  end.

(** The handler a request is routed to. *)
Definition handle (w : world) (req : request) : M response :=
  match req with
  | Signup data => signup w data
  | Login data => login w data
  | GetUser u => get_user w u
  | GetPapers u => get_papers w u
  | UploadPaper u files => upload_paper w u files
  | GetPaper u p => get_paper w u p
  | DeletePaper u p => delete_paper w u p
  | CreateCheckoutSession u => create_checkout_session w u
  end.

(** The error messages written as literals in the handlers. *)
Definition fixed_messages : list string :=
  [ "Email already exists"; "Invalid credentials"; "User not found"; QUOTA_MESSAGE;
    "No file provided"; "No file selected"; "Only PDF files are allowed";
    "Could not extract text from PDF"; "Paper not found" ].

(** * Definitions used by the statements

    Functions that describe what the specification says (to be compared
    with the code), and the sample worlds and stores on which the
    theorems are instantiated. *)

(** The first page whose extraction raises, if any. *)
Fixpoint first_failure (pages : list page) : option exn :=
  match pages with
  | [] => None
  | PageRaises e :: _ => Some e
  | _ :: rest => first_failure rest
  end.

(** The texts of the pages that yield something, in page order. *)
Fixpoint page_texts (pages : list page) : list string :=
  match pages with
  | [] => []
  | PageText s :: rest => if Py.truthy s then s :: page_texts rest else page_texts rest
  | _ :: rest => page_texts rest
  end.

(** Every text followed by a newline. *)
Fixpoint terminated (texts : list string) : string :=
  match texts with
  | [] => ""
  | t :: rest => t +:+ Py.nl +:+ terminated rest
  end.

(** The extraction as the specification words it: the texts of the pages
    joined with a newline separator, the empty string on a failure. *)
Definition extract_text_joined (w : world) (file : blob) : string :=
  match PdfReader w file with
  | Raise _ => ""
  | Ok pages =>
      match first_failure pages with
      | Some _ => ""
      | None => Py.join Py.nl (page_texts pages)
      end
  end.

(** A world in which nothing fails and every file reads as [pages]. *)
Definition quiet_world (pages : outcome (list page)) : world := {|
  PdfReader := fun _ => pages;
  generate_content := fun _ _ => Ok "generated text";
  utcnow := 1700000000123456;
  int_timestamp := fun d => Z.quot d 1000000;
  utcnow_default := 1700000001000000;
  isoformat := Py.str_of_int;
  makedirs_error := None;
  isdir := fun _ => false;
  write_error := None;
  remove_error := None;
  commit_error := None;
  generate_password_hash := fun p => Ok ("$2b$" +:+ p);
  check_password_hash := fun h p => Ok (String.eqb h ("$2b$" +:+ p));
  create_access_token := fun identity => "jwt." +:+ identity;
  stripe_checkout_url := fun _ _ => Ok "https://checkout.stripe.com/session"
|}.

(** The five analysis kinds of the specification. *)
Definition known_kinds : list string :=
  ["summary"; "key_findings"; "methodology"; "research_gaps"; "future_work"].

(** The instruction of each kind, as the specification lists the intents;
    a kind outside the five is given the instruction of the summary. *)
Definition instruction (kind : string) : string :=
  if decide (kind = "key_findings")
  then "Extract and list 4-5 main findings from this research paper:"
  else if decide (kind = "methodology")
  then "Describe the research methodology used in this paper:"
  else if decide (kind = "research_gaps")
  then "Identify 3-5 research gaps and limitations in this paper:"
  else if decide (kind = "future_work")
  then "Suggest 4-5 specific areas for future research based on this paper:"
  else "Analyze this research paper and provide a comprehensive summary in 200 words:".

(** A user of the free tier. *)
Definition ann : User.t :=
  User.mk 1 "ann@example.org" "$2b$secret" "Ann" false None None 1690000000000000.

(** A paper of [ann] with a short summary. *)
Definition ann_paper (id : Z) (uploaded_at : Z) : Paper.t :=
  Paper.mk id 1 "owls" "owls.pdf" "uploads/1_1690000000_owls.pdf"
    (Some "Owls hunt at night.") (Some "gaps") (Some "future") (Some "findings")
    (Some "method") uploaded_at.

(** A store whose only user is [ann], owning the papers 1 to [n]; nobody
    else owns anything. *)
Definition ann_store (n : nat) : state :=
  State [ann] (map (fun i => ann_paper (Z.of_nat i) (1690000000000000 + Z.of_nat i)) (seq 1 n))
        ∅ [].

(** [obj[key]] on a JSON object. *)
Definition json_field (key : string) (j : json) : option json :=
  match j with
  | JDict fields => snd <$> List.find (fun kv => String.eqb (fst kv) key) fields
  | _ => None
  end.

(** A summary of more than 200 characters, also used as the text of a
    readable page. *)
Definition owl_summary : string :=
  "Owls are nocturnal birds of prey. This paper surveys their hunting behaviour across "
  +:+ "four habitats, compares acoustic and visual localisation of prey, and reports a "
  +:+ "field study of nesting density in managed forests over three consecutive seasons.".

(** A paper of [ann] with the long summary. *)
Definition owl_paper : Paper.t :=
  Paper.mk 1 1 "owls" "owls.pdf" "uploads/1_1690000000_owls.pdf"
    (Some owl_summary) (Some "gaps") (Some "future") (Some "findings")
    (Some "method") 1690000000000000.

(** [ann] with two papers: an older one with the long summary, a newer
    one with a short summary. *)
Definition owl_store : state :=
  State [ann] [owl_paper; ann_paper 2 1690000500000000]
        {[ "uploads/1_1690000000_owls.pdf" := [] ]} [].

(** A world whose reader finds one page of readable text in every file. *)
Definition readable_world : world := quiet_world (Ok [PageText owl_summary]).

(** [request.files] of an upload of an empty file named [filename]. *)
Definition upload_of (filename : string) : gmap string FileStorage.t :=
  {[ "file" := FileStorage.mk filename [] ]}.

(** The title and the filename of every stored paper. *)
Definition titles (st : state) : list (string * string) :=
  map (fun p => (Paper.title p, Paper.filename p)) (papers st).

(** The status a handler gives to an exception that reaches its
    [except] clause. *)
Definition exception_status (req : request) : Z :=
  match req with
  | CreateCheckoutSession _ => 400
  | _ => 500
  end.

(** A refusal written in the handler: one of the literal messages, under
    a 4xx status. *)
Definition fixed_refusal (r : response) : Prop :=
  exists m, m ∈ fixed_messages /\ r = error_response m (status r)
    /\ 400 <= status r < 500.

(** The claim C5 as stated: every failing request is answered with one of
    the fixed messages. *)
Definition only_fixed_messages : Prop :=
  forall (w : world) (req : request) (st st' : state) (r : response),
    handle w req st = (Ok r, st') ->
    400 <= status r ->
    exists m, m ∈ fixed_messages /\ body r = JDict [("error", JStr m)].

(** Neither a separator nor a dot. *)
Definition plain (c : ascii) : bool := (negb (Ascii.eqb c "/") && negb (Ascii.eqb c "."))%bool.

(** Every character of [s] is [plain]. *)
Fixpoint all_plain (s : string) : bool :=
  match s with
  | EmptyString => true
  | String c rest => (plain c && all_plain rest)%bool
  end.

(** A filename with directory components that passes the checks of the
    upload. *)
Definition climbing_filename : string := "/../../escape.pdf".

(** ** Runs of the service and what a request may change *)

(** The identity under which a request is made, for the routes that
    require a token. *)
Definition identity_of (req : request) : option Z :=
  match req with
  | Signup _ | Login _ => None
  | GetUser u | GetPapers u | UploadPaper u _ | GetPaper u _ | DeletePaper u _
  | CreateCheckoutSession u => Some u
  end.

(** The store of a fresh installation, after [db.create_all()]. *)
Definition empty_store : state := State [] [] ∅ [].

(** Requests served one after the other, each in its own world. *)
Fixpoint serve (reqs : list (world * request)) (st : state) : state :=
  match reqs with
  | [] => st
  | (w, req) :: rest => serve rest (snd (handle w req st))
  end.

(** What a request made under the identity [who] may do to the two
    tables: nothing, add a user, add a paper of [who], or delete a paper
    of [who]. *)
Inductive effect (who : option Z) (st st' : state) : Prop :=
  | effect_none :
      users st' = users st -> papers st' = papers st -> effect who st st'
  | effect_new_user (u : User.t) :
      users st' = users st ++ [u] -> papers st' = papers st ->
      User.id u = next_id (map User.id (users st)) ->
      User_by_email st (User.email u) = None ->
      User.is_premium u = false ->
      effect who st st'
  | effect_new_paper (p : Paper.t) (owner : User.t) :
      users st' = users st -> papers st' = papers st ++ [p] ->
      Paper.id p = next_id (map Paper.id (papers st)) ->
      who = Some (Paper.user_id p) ->
      User_get st (Paper.user_id p) = Some owner ->
      (User.is_premium owner = true
       \/ (length (Paper_by_user st (Paper.user_id p)) < 3)%nat) ->
      effect who st st'
  | effect_drop (gone : Paper.t) :
      users st' = users st ->
      papers st' = filter (fun p => Paper.id p <> Paper.id gone) (papers st) ->
      gone ∈ papers st ->
      who = Some (Paper.user_id gone) ->
      effect who st st'.

(** The integrity of the store: primary keys and emails are unique, every
    paper has its owner, and a user of the free tier holds at most three
    papers. *)
Record consistent (st : state) : Prop := Consistent {
  user_ids_unique : NoDup (map User.id (users st));
  emails_unique : NoDup (map User.email (users st));
  paper_ids_unique : NoDup (map Paper.id (papers st));
  owners_exist : forall p, p ∈ papers st ->
    exists u, u ∈ users st /\ User.id u = Paper.user_id p;
  free_quota : forall u, u ∈ users st -> User.is_premium u = false ->
    (length (Paper_by_user st (User.id u)) <= 3)%nat
}.

(** The five prompts of a full analysis, in the order they are sent. *)
Definition analysis_prompts (text : string) : list string :=
  map (fun kind => instruction kind +:+ Py.nl +:+ Py.nl +:+ Py.slice_to TEXT_LIMIT text)
      known_kinds.

(** What the adapter returns for an answer of the provider. *)
Definition degrade (o : outcome string) : string :=
  match o with
  | Ok generated => generated
  | Raise e => "Error: " +:+ Py.str_of_exn e
  end.

(** No separator in [s]. *)
Fixpoint no_slash (s : string) : bool :=
  match s with
  | EmptyString => true
  | String c rest => (negb (Ascii.eqb c "/") && no_slash rest)%bool
  end.

(** No dot, hence no extension, in [s]. *)
Fixpoint no_dot (s : string) : bool :=
  match s with
  | EmptyString => true
  | String c rest => (negb (Ascii.eqb c ".") && no_dot rest)%bool
  end.

(** The quiet world, except that the commit fails. *)
Definition failing_commit : world :=
  let w := quiet_world (Ok []) in
  World (PdfReader w) (generate_content w) (utcnow w) (int_timestamp w)
        (utcnow_default w) (isoformat w)
        (makedirs_error w) (isdir w) (write_error w) (remove_error w)
        (Some (Exception "OperationalError" "database is locked"))
        (generate_password_hash w) (check_password_hash w) (create_access_token w)
        (stripe_checkout_url w).

(** Every character of [s] is a digit or the minus sign. *)
Fixpoint numeral (s : string) : bool :=
  match s with
  | EmptyString => true
  | String c rest =>
      ((Ascii.eqb c "-" || ((48 <=? nat_of_ascii c)%nat && (nat_of_ascii c <=? 57)%nat))
       && numeral rest)%bool
  end.

(** The routes that only read. *)
Definition reads_only (req : request) : bool :=
  match req with
  | Login _ | GetUser _ | GetPapers _ | GetPaper _ _ | CreateCheckoutSession _ => true
  | Signup _ | UploadPaper _ _ | DeletePaper _ _ => false
  end.



(** [request.files] of an upload of [content] under [filename]. *)
Definition upload_file (filename : string) (content : blob) : gmap string FileStorage.t :=
  {[ "file" := FileStorage.mk filename content ]}.



(** The readable world on a disk where somebody has made the directory
    [uploads/1_1700000000_]. *)
Definition prepared_world : world :=
  let w := readable_world in
  World (PdfReader w) (generate_content w) (utcnow w) (int_timestamp w)
        (utcnow_default w) (isoformat w) (makedirs_error w)
        (fun dir => bool_decide (dir = ["uploads"; "1_1700000000_"]))
        (write_error w) (remove_error w) (commit_error w)
        (generate_password_hash w) (check_password_hash w) (create_access_token w)
        (stripe_checkout_url w).

(** * Properties *)

(** ** Strings *)

Section string_facts.

Lemma str_app_cons (c : ascii) (s t : string) :
  String c s +:+ t = String c (s +:+ t).
Proof. reflexivity. Qed.

Lemma str_app_nil_r (s : string) : s +:+ "" = s.
Proof. induction s as [|c s IH]; [done|]. by rewrite str_app_cons, IH. Qed.

Lemma str_app_assoc (s t u : string) : (s +:+ t) +:+ u = s +:+ (t +:+ u).
Proof. induction s as [|c s IH]; [done|]. by rewrite !str_app_cons, IH. Qed.

(** [s[:n]] is a prefix of [s] of length [min n (len s)]. *)
Lemma slice_to_prefix (n : nat) (s : string) :
  exists rest, s = Py.slice_to n s +:+ rest.
Proof.
  unfold Py.slice_to. revert n.
  induction s as [|c s IH]; intros [|n]; cbn.
  - by exists "".
  - by exists "".
  - by exists (String c s).
  - destruct (IH n) as [rest Hrest]. exists rest.
    rewrite str_app_cons. by f_equal.
Qed.

Lemma slice_to_length (n : nat) (s : string) :
  String.length (Py.slice_to n s) = Nat.min n (String.length s).
Proof.
  unfold Py.slice_to. revert n.
  induction s as [|c s IH]; intros [|n]; cbn; try done.
  by rewrite IH.
Qed.

End string_facts.

(** ** The monad *)

(** A handler of the shape [try ... except Exception as e: return
    jsonify({'error': str(e)}), code] always answers: with the response of
    its [try] block, or with [str(e)] under [code]. *)
Lemma try_except_cases (m : M response) (code : Z) st :
  (exists r st', m st = (Ok r, st') /\
     try_except m (fun e => mret (error_response (Py.str_of_exn e) code)) st = (Ok r, st'))
  \/ (exists e st', m st = (Raise e, st') /\
     try_except m (fun e => mret (error_response (Py.str_of_exn e) code)) st
       = (Ok (error_response (Py.str_of_exn e) code), st')).
Proof.
  unfold try_except. destruct (m st) as [[r|e] st']; [left|right]; eauto.
Qed.

(** Unfolds the operations of the monad. *)
Ltac monad_unfold :=
  unfold mbind, M_bind, mret, M_ret, mthrow, M_throw, gets, modify,
    may_raise, lift_outcome, try_except, internal_error in *.

(** ** Text extraction (section 4.2) *)

Lemma extract_pages_acc (pages : list page) (text : string) :
  extract_pages pages text =
    match first_failure pages with
    | Some e => Raise e
    | None => Ok (text +:+ terminated (page_texts pages))
    end.
Proof.
  revert text. induction pages as [|[s| |e] rest IH]; intros text; cbn.
  - by rewrite str_app_nil_r.
  - destruct (Py.truthy s); rewrite IH; destruct (first_failure rest); try done.
    cbn. by rewrite !str_app_assoc.
  - apply IH.
  - done.
Qed.

(** Joining with a separator and terminating every text differ by the
    last newline. *)
Lemma terminated_join (t : string) (texts : list string) :
  terminated (t :: texts) = Py.join Py.nl (t :: texts) +:+ Py.nl.
Proof.
  revert t. induction texts as [|t' texts IH]; intros t.
  - cbn. by rewrite str_app_nil_r.
  - change (terminated (t :: t' :: texts)) with (t +:+ Py.nl +:+ terminated (t' :: texts)).
    rewrite IH. unfold Py.join. cbn [String.concat].
    by rewrite !str_app_assoc.
Qed.

(** C9, as stated, fails: for a document of one page reading [abc] the
    function returns [abc] followed by a newline, not the pages joined
    with a newline separator. *)
Lemma C9_joined_counterexample :
  extract_text_from_pdf (quiet_world (Ok [PageText "abc"])) []
    <> extract_text_joined (quiet_world (Ok [PageText "abc"])) [].
Proof. vm_compute. discriminate. Qed.

(** C9 (amended): the extraction returns every page's text that is not
    empty followed by a newline, in page order, that is the texts joined
    with a newline and one more newline at the end when there is a text;
    pages that yield nothing are skipped; when the reader or any page
    raises, the result is the empty string (the function itself never
    raises: it is total). *)
Theorem C9_extract_text (w : world) (file : blob) :
  extract_text_from_pdf w file =
    match PdfReader w file with
    | Raise _ => ""
    | Ok pages =>
        match first_failure pages, page_texts pages with
        | Some _, _ => ""
        | None, [] => ""
        | None, t :: texts => Py.join Py.nl (t :: texts) +:+ Py.nl
        end
    end.
Proof.
  unfold extract_text_from_pdf.
  destruct (PdfReader w file) as [pages|e]; [|done].
  rewrite extract_pages_acc.
  destruct (first_failure pages); [done|].
  destruct (page_texts pages) as [|t texts]; [done|].
  by rewrite terminated_join.
Qed.

(** ** The analysis adapter (section 4.3) *)

Lemma gemini_prompt_instruction (text kind : string) :
  gemini_prompt text kind =
    Ok (instruction kind +:+ Py.nl +:+ Py.nl +:+ Py.slice_to TEXT_LIMIT text).
Proof.
  unfold gemini_prompt, prompts, instruction.
  rewrite !lookup_insert.
  repeat case_decide; simplify_eq; done.
Qed.

Lemma analyze_with_gemini_rest_run (w : world) (text kind : string) (st : state) :
  exists generated,
    analyze_with_gemini_rest w text kind st =
      (Ok generated,
       State (users st) (papers st) (disk st)
             (gemini_calls st ++
                [instruction kind +:+ Py.nl +:+ Py.nl +:+ Py.slice_to TEXT_LIMIT text])).
Proof.
  unfold analyze_with_gemini_rest. rewrite gemini_prompt_instruction.
  monad_unfold. cbn.
  destruct (generate_content w _ _); eauto.
Qed.

(** C8: the adapter sends the provider the instruction of the requested
    kind followed by the first 6000 characters of the text, and by nothing
    else of the text; a kind outside the five gets the prompt of the
    summary.  The call always returns. *)
Theorem C8_prompt_budget (w : world) (text kind : string) (st : state) :
  (exists generated cut rest,
     analyze_with_gemini_rest w text kind st =
       (Ok generated,
        State (users st) (papers st) (disk st)
              (gemini_calls st ++ [instruction kind +:+ Py.nl +:+ Py.nl +:+ cut]))
     /\ text = cut +:+ rest
     /\ String.length cut = Nat.min 6000 (String.length text))
  /\ (kind ∉ known_kinds -> gemini_prompt text kind = gemini_prompt text "summary")
  /\ (forall text', Py.slice_to 6000 text' = Py.slice_to 6000 text ->
        gemini_prompt text' kind = gemini_prompt text kind).
Proof.
  split; [|split].
  - destruct (analyze_with_gemini_rest_run w text kind st) as [generated Hrun].
    destruct (slice_to_prefix TEXT_LIMIT text) as [rest Hrest].
    exists generated, (Py.slice_to TEXT_LIMIT text), rest.
    split; [done|]. split; [done|]. apply slice_to_length.
  - intros Hkind. rewrite !gemini_prompt_instruction. do 2 f_equal.
    unfold instruction, known_kinds in *.
    repeat case_decide; try done; subst; exfalso; apply Hkind; set_solver.
  - intros text' Hcut. rewrite !gemini_prompt_instruction.
    change TEXT_LIMIT with 6000%nat. by rewrite Hcut.
Qed.

Lemma C8_prompt_budget_witness :
  ("abstract" ∉ known_kinds) /\
  (gemini_prompt "A study of owls." "abstract" = gemini_prompt "A study of owls." "summary").
Proof.
  assert (Hkind : "abstract" ∉ known_kinds).
  { unfold known_kinds. intros H. repeat (apply elem_of_cons in H as [H|H]; [discriminate|]).
    by apply elem_of_nil in H. }
  split; [exact Hkind|].
  exact (proj1 (proj2 (C8_prompt_budget (quiet_world (Ok [])) "A study of owls." "abstract"
                         (State [] [] ∅ []))) Hkind).
Defined.

(** ** Ownership of papers (section 4.5) *)


(** How the query of the single-paper routes runs. *)
Lemma Paper_first_bindable (st : state) (paper_id user_id : Z) :
  bindable st paper_id = true ->
  Paper_first_by_id_user paper_id user_id st
    = (Ok (Paper_by_id_user st paper_id user_id), st).
Proof.
  intros Hbind. unfold Paper_first_by_id_user, gets, mbind, M_bind. by rewrite Hbind.
Qed.

Lemma bindable_fits (st : state) (paper_id : Z) :
  - 2 ^ 63 <= paper_id < 2 ^ 63 -> bindable st paper_id = true.
Proof.
  intros Hrange. unfold bindable, fits_int64. apply orb_true_iff. left.
  apply andb_true_iff. split; [apply Z.leb_le|apply Z.ltb_lt]; lia.
Qed.

Lemma Paper_first_found (st : state) (paper_id user_id : Z) (paper : Paper.t) :
  Paper_by_id_user st paper_id user_id = Some paper ->
  Paper_first_by_id_user paper_id user_id st = (Ok (Some paper), st).
Proof.
  intros Hfound. rewrite Paper_first_bindable; [by rewrite Hfound|].
  unfold bindable. apply orb_true_iff. right. apply bool_decide_eq_true.
  unfold Paper_by_id_user in Hfound.
  assert (Hin : paper ∈ filter (fun p => Paper.id p = paper_id
                                        /\ Paper.user_id p = user_id) (papers st)).
  { destruct (filter _ (papers st)); [done|]. cbn in Hfound. simplify_eq. left. }
  apply list_elem_of_filter in Hin as [[Hid _] Hin].
  apply list_elem_of_In, in_map_iff. exists paper. split; [done|].
  by apply list_elem_of_In.
Qed.





(** ** Login (section 4.6) *)



(** ** The quota (section 4.1) *)

(** What the [try] block of [upload_paper] can answer when it returns. *)
Lemma upload_paper_try_ok (w : world) (user_id : Z) (files : gmap string FileStorage.t)
    (st st' : state) (r : response) :
  upload_paper_try w user_id files st = (Ok r, st') ->
  status r = 201
  \/ r = error_response "User not found" 404
  \/ (r = error_response QUOTA_MESSAGE 403 /\
      exists user, User_get st user_id = Some user /\ User.is_premium user = false
        /\ 3 <= Z.of_nat (length (Paper_by_user st user_id)))
  \/ r = error_response "No file provided" 400
  \/ r = error_response "No file selected" 400
  \/ r = error_response "Only PDF files are allowed" 400
  \/ r = error_response "Could not extract text from PDF" 400.
Proof.
  intros Htry.
  unfold upload_paper_try, save, open_rb, add_paper in Htry. monad_unfold.
  cbn in Htry.
  destruct (User_get st user_id) as [user|] eqn:Huser; [|simplify_eq; tauto].
  destruct (User.is_premium user) eqn:Hpremium; cbn in Htry.
  - repeat case_match; simplify_eq; cbn; tauto.
  - destruct (3 <=? Z.of_nat (length (Paper_by_user st user_id))) eqn:Hcount.
    + simplify_eq. right; right; left. split; [done|].
      exists user. repeat split; [done|]. by apply Z.leb_le.
    + repeat case_match; simplify_eq; cbn; tauto.
Qed.

(** C1: a user who is not premium and owns three papers or more is
    refused with 403 and the quota message, and nothing is stored: the
    state stays as it was.  For a premium user the upload always answers,
    and never with 403, whatever the number of papers. *)
Theorem C1_quota (w : world) (st : state) (user_id : Z)
    (files : gmap string FileStorage.t) (user : User.t) :
  User_get st user_id = Some user ->
  (User.is_premium user = false ->
   3 <= Z.of_nat (length (Paper_by_user st user_id)) ->
   upload_paper w user_id files st = (Ok (error_response QUOTA_MESSAGE 403), st))
  /\ (User.is_premium user = true ->
      exists r st', upload_paper w user_id files st = (Ok r, st') /\ status r <> 403).
Proof.
  intros Huser. split.
  - intros Hfree Hcount. apply Z.leb_le in Hcount.
    unfold upload_paper, upload_paper_try. monad_unfold.
    rewrite Huser, Hfree. cbn. by rewrite Hcount.
  - intros Hpremium. unfold upload_paper.
    destruct (try_except_cases (upload_paper_try w user_id files) 500 st)
      as [(r & st' & Htry & Hrun)|(e & st' & Htry & Hrun)].
    + exists r, st'. split; [exact Hrun|].
      apply upload_paper_try_ok in Htry.
      destruct Htry as [H|[H|[[H (u & Hu & Hfree & _)]|[H|[H|[H|H]]]]]];
        try (rewrite H; cbn; lia).
      rewrite Huser in Hu. simplify_eq. congruence.
    + eexists _, st'. split; [exact Hrun|]. cbn. lia.
Qed.

Lemma C1_quota_witness :
  upload_paper (quiet_world (Ok [])) 1 ∅ (ann_store 3)
    = (Ok (error_response QUOTA_MESSAGE 403), ann_store 3).
Proof.
  apply (proj1 (C1_quota (quiet_world (Ok [])) (ann_store 3) 1 ∅ ann eq_refl)).
  - reflexivity.
  - vm_compute. discriminate.
Defined.

(** ** Extraction failure in the pipeline (section 4.4, step 5) *)

(** C3: when the text extracted from the saved upload is empty or has
    fewer than 100 characters, the upload is answered with 400 "Could not
    extract text from PDF"; the paper table is as it was, no call to the
    provider has been made, and the uploaded bytes stay on disk under the
    path they were written to. *)
Theorem C3_extraction_failed (w : world) (st : state) (user_id : Z)
    (files : gmap string FileStorage.t) (user : User.t) (file : FileStorage.t) :
  User_get st user_id = Some user ->
  (User.is_premium user = true \/ Z.of_nat (length (Paper_by_user st user_id)) < 3) ->
  files !! "file" = Some file ->
  FileStorage.filename file <> "" ->
  Py.endswith (Py.lower (FileStorage.filename file)) ".pdf" = true ->
  makedirs_error w = None ->
  save_error w (upload_path w user_id (FileStorage.filename file)) = None ->
  Py.len (extract_text_from_pdf w (FileStorage.stream file)) < 100 ->
  exists st',
    upload_paper w user_id files st
      = (Ok (error_response "Could not extract text from PDF" 400), st')
    /\ users st' = users st
    /\ papers st' = papers st
    /\ gemini_calls st' = gemini_calls st
    /\ disk st' = <[upload_path w user_id (FileStorage.filename file)
                     := FileStorage.stream file]> (disk st).
Proof.
  intros Huser Hquota Hfile Hname Hpdf Hmk Hsave Hshort.
  assert (Hgate : (negb (User.is_premium user)
             && (3 <=? Z.of_nat (length (Paper_by_user st user_id))))%bool = false).
  { destruct Hquota as [->|Hlt]; [done|].
    apply andb_false_iff. right. by apply Z.leb_gt. }
  assert (Hts : too_short (extract_text_from_pdf w (FileStorage.stream file)) = true).
  { unfold too_short. apply orb_true_iff. right. by apply Z.ltb_lt. }
  apply String.eqb_neq in Hname.
  eexists. split.
  - unfold upload_paper, upload_paper_try, save, open_rb. monad_unfold.
    rewrite Huser. cbn. rewrite Hgate, Hfile, Hname, Hpdf, Hmk, Hsave. cbn.
    rewrite lookup_insert_eq, Hts. reflexivity.
  - done.
Qed.

(** A user with no papers uploads a scan whose only page reads [abc]. *)
Lemma C3_extraction_failed_witness :
  exists st',
    upload_paper (quiet_world (Ok [PageText "abc"])) 1
        {[ "file" := FileStorage.mk "scan.pdf" [] ]} (ann_store 0)
      = (Ok (error_response "Could not extract text from PDF" 400), st')
    /\ users st' = users (ann_store 0)
    /\ papers st' = papers (ann_store 0)
    /\ gemini_calls st' = gemini_calls (ann_store 0)
    /\ disk st' = <[upload_path (quiet_world (Ok [PageText "abc"])) 1 "scan.pdf" := []]>
                    (disk (ann_store 0)).
Proof.
  apply (C3_extraction_failed (quiet_world (Ok [PageText "abc"])) (ann_store 0) 1
           {[ "file" := FileStorage.mk "scan.pdf" [] ]} ann (FileStorage.mk "scan.pdf" [])).
  - reflexivity.
  - right. vm_compute. reflexivity.
  - reflexivity.
  - discriminate.
  - reflexivity.
  - reflexivity.
  - reflexivity.
  - vm_compute. reflexivity.
Defined.

(** ** Listing and viewing papers (section 6) *)

#[local] Instance newer_first_trans : Transitive newer_first.
Proof. unfold newer_first. intros p q r Hpq Hqr. lia. Qed.

#[local] Instance newer_first_total : Total newer_first.
Proof. unfold newer_first. intros p q. lia. Qed.

Lemma list_summary_long (s : string) :
  200 < Py.len s -> list_summary (Some s) = Some (Py.slice_to 200 s +:+ "...").
Proof.
  intros Hlong. unfold list_summary.
  destruct s as [|c s]; [vm_compute in Hlong; discriminate|].
  apply Z.ltb_lt in Hlong. by rewrite Hlong.
Qed.

Lemma list_summary_short (s : string) :
  Py.len s <= 200 -> list_summary (Some s) = Some s.
Proof.
  intros Hshort. unfold list_summary.
  apply Z.ltb_ge in Hshort. rewrite Hshort. by rewrite andb_false_r.
Qed.

(** C7: the listing answers 200 with one entry per paper of the user,
    newest upload first; a summary of more than 200 characters is listed
    as its first 200 characters followed by three dots, a shorter one as
    it is; the single-paper view gives the summary in full. *)
Theorem C7_listing (w : world) (st : state) (user_id : Z) :
  (exists rows,
     get_papers w user_id st = (Ok (Response (JList (map (paper_entry w) rows)) 200), st)
     /\ rows ≡ₚ filter (fun p => Paper.user_id p = user_id) (papers st)
     /\ StronglySorted (fun p q => Paper.uploaded_at q <= Paper.uploaded_at p) rows)
  /\ (forall p s, Paper.summary p = Some s ->
        (200 < Py.len s ->
           exists cut rest,
             json_field "summary" (paper_entry w p) = Some (JStr (cut +:+ "..."))
             /\ s = cut +:+ rest /\ String.length cut = 200%nat)
        /\ (Py.len s <= 200 -> json_field "summary" (paper_entry w p) = Some (JStr s)))
  /\ (forall paper_id p, Paper_by_id_user st paper_id user_id = Some p ->
        exists r, get_paper w user_id paper_id st = (Ok r, st)
          /\ status r = 200
          /\ json_field "summary" (body r) = Some (json_of_text (Paper.summary p))).
Proof.
  split; [|split].
  - exists (Paper_by_user_newest_first st user_id). split; [reflexivity|]. split.
    + apply merge_sort_Permutation.
    + apply (StronglySorted_merge_sort newer_first).
  - intros p s Hs. split.
    + intros Hlong. destruct (slice_to_prefix 200 s) as [rest Hrest].
      exists (Py.slice_to 200 s), rest. split; [|split; [done|]].
      * cbn. by rewrite Hs, list_summary_long.
      * rewrite slice_to_length. unfold Py.len in Hlong. lia.
    + intros Hshort. cbn. by rewrite Hs, list_summary_short.
  - intros paper_id p Hp. eexists. split; [|split].
    + unfold get_paper, get_paper_try, try_except, mbind, M_bind.
      rewrite (Paper_first_found _ _ _ _ Hp). reflexivity.
    + done.
    + done.
Qed.

Lemma C7_listing_witness :
  (exists cut rest,
     json_field "summary" (paper_entry (quiet_world (Ok [])) owl_paper)
       = Some (JStr (cut +:+ "..."))
     /\ owl_summary = cut +:+ rest /\ String.length cut = 200%nat)
  /\ (exists r, get_paper (quiet_world (Ok [])) 1 1 owl_store = (Ok r, owl_store)
        /\ status r = 200
        /\ json_field "summary" (body r) = Some (JStr owl_summary)).
Proof.
  destruct (C7_listing (quiet_world (Ok [])) owl_store 1) as (_ & Hlist & Hview).
  split.
  - apply (Hlist owl_paper owl_summary eq_refl). vm_compute. reflexivity.
  - apply (Hview 1 owl_paper eq_refl).
Defined.

(** ** The derived title (section 4.4, step 7) *)

(** C4 at its failing inputs: both uploads are accepted and answered with
    201; the filename is stored unchanged, but the title of
    [owls.pdf.v2.pdf] is [owls.v2] (the inner [.pdf] is removed too, where
    stripping the suffix gives [owls.pdf.v2]) and the title of [OWLS.PDF]
    is [OWLS.PDF] (the suffix, accepted by the case-insensitive check of
    the extension, is not stripped). *)
Theorem C4_title_at_failing_inputs :
  (status <$> fst (upload_paper readable_world 1 (upload_of "owls.pdf.v2.pdf") (ann_store 0))
     = Ok 201
   /\ titles (snd (upload_paper readable_world 1 (upload_of "owls.pdf.v2.pdf") (ann_store 0)))
     = [("owls.v2", "owls.pdf.v2.pdf")])
  /\ (status <$> fst (upload_paper readable_world 1 (upload_of "OWLS.PDF") (ann_store 0))
     = Ok 201
   /\ titles (snd (upload_paper readable_world 1 (upload_of "OWLS.PDF") (ann_store 0)))
     = [("OWLS.PDF", "OWLS.PDF")]).
Proof. vm_compute. repeat split. Qed.

(** ** Error responses (section 7) *)

Lemma handle_try_except (w : world) (req : request) :
  handle w req =
    try_except (try_block w req)
      (fun e => mret (error_response (Py.str_of_exn e) (exception_status req))).
Proof. by destruct req. Qed.

Ltac fixed_message :=
  eexists; split; [|split; [reflexivity|cbn; lia]];
  apply list_elem_of_In; cbn; repeat first [left; reflexivity | right].

Ltac settle_answer :=
  simplify_eq; first [left; cbn; lia | right; fixed_message].

Lemma try_block_ok (w : world) (req : request) (st st' : state) (r : response) :
  try_block w req st = (Ok r, st') ->
  status r < 400 \/ fixed_refusal r.
Proof.
  destruct req; cbn; intros Htry.
  - unfold signup_try, item, add_user in Htry. monad_unfold. cbn in Htry.
    repeat case_match; settle_answer.
  - unfold login_try, item in Htry. monad_unfold. cbn in Htry.
    repeat case_match; settle_answer.
  - unfold get_user_try in Htry. monad_unfold. cbn in Htry.
    repeat case_match; settle_answer.
  - unfold get_papers_try in Htry. monad_unfold. cbn in Htry. settle_answer.
  - apply upload_paper_try_ok in Htry.
    destruct Htry as [H|[H|[[H _]|[H|[H|[H|H]]]]]];
      [left; lia|subst r; right; fixed_message..].
  - unfold get_paper_try in Htry. monad_unfold. cbn in Htry.
    repeat case_match; settle_answer.
  - unfold delete_paper_try, remove, drop_paper in Htry. monad_unfold. cbn in Htry.
    repeat case_match; settle_answer.
  - unfold create_checkout_session_try in Htry. monad_unfold. cbn in Htry.
    repeat case_match; settle_answer.
Qed.

(** C5, as stated, fails: a signup whose body has no ['password'] is
    answered with 500 and the text of the [KeyError], which is not one of
    the messages of the handlers. *)
Lemma C5_exception_text_counterexample : ~ only_fixed_messages.
Proof.
  intros Hfixed.
  assert (Hrun : handle (quiet_world (Ok []))
                   (Signup {[ "email" := "bob@example.org"; "name" := "Bob" ]})
                   (ann_store 0)
                 = (Ok (error_response "'password'" 500), ann_store 0))
    by (vm_compute; reflexivity).
  destruct (Hfixed _ _ _ _ _ Hrun) as (m & Hm & Hbody).
  { cbn. lia. }
  cbn in Hbody. injection Hbody as <-.
  unfold fixed_messages, QUOTA_MESSAGE in Hm.
  repeat (apply elem_of_cons in Hm as [Hm|Hm]; [discriminate|]).
  by apply elem_of_nil in Hm.
Qed.

(** C5 (amended): every request is answered, and a failing one (status
    400 and above) with a body that is exactly [{'error': message}], where
    either the [try] block of the handler returned one of its literal
    messages under a 4xx status, or the [try] block raised an exception
    [e] and the message is [str(e)], under status 500 (400 for the
    checkout).  The body has no other field, so no stack trace. *)
Theorem C5_error_bodies (w : world) (req : request) (st : state) :
  exists r st',
    handle w req st = (Ok r, st')
    /\ (400 <= status r ->
        (try_block w req st = (Ok r, st') /\ fixed_refusal r)
        \/ (exists e, try_block w req st = (Raise e, st')
              /\ r = error_response (Py.str_of_exn e) (exception_status req))).
Proof.
  rewrite handle_try_except.
  destruct (try_except_cases (try_block w req) (exception_status req) st)
    as [(r & st' & Htry & Hrun)|(e & st' & Htry & Hrun)].
  - exists r, st'. split; [exact Hrun|]. intros Hfail. left. split; [exact Htry|].
    destruct (try_block_ok _ _ _ _ _ Htry) as [Hok|Hfixed]; [lia|exact Hfixed].
  - eexists _, st'. split; [exact Hrun|]. intros _. right. by exists e.
Qed.

Lemma C5_error_bodies_witness :
  (try_block (quiet_world (Ok [])) (GetPaper 2 1) (ann_store 1)
     = (Ok (error_response "Paper not found" 404), ann_store 1)
   /\ fixed_refusal (error_response "Paper not found" 404))
  \/ (exists e, try_block (quiet_world (Ok [])) (GetPaper 2 1) (ann_store 1)
                  = (Raise e, ann_store 1)
        /\ error_response "Paper not found" 404 = error_response (Py.str_of_exn e) 500).
Proof.
  destruct (C5_error_bodies (quiet_world (Ok [])) (GetPaper 2 1) (ann_store 1))
    as (r & st' & Hrun & Hfail).
  cbn in Hrun. injection Hrun as <- <-. apply Hfail. cbn. lia.
Defined.

(** ** The storage path (section 4.4, step 4) *)


Lemma all_plain_uint (d : Decimal.uint) : all_plain (NilEmpty.string_of_uint d) = true.
Proof. induction d; cbn; done. Qed.

(** [str(n)] is a non-empty run of digits, after a minus sign for a
    negative [n]. *)
Lemma str_of_int_plain (n : Z) :
  all_plain (Py.str_of_int n) = true /\ Py.str_of_int n <> "".
Proof.
  unfold Py.str_of_int, NilZero.string_of_int, NilZero.string_of_uint.
  destruct (Z.to_int n) as [d|d]; destruct d; cbn; rewrite ?all_plain_uint; done.
Qed.

Lemma split_plain (s t : string) :
  all_plain s = true -> Posix.split (s +:+ "/" +:+ t) = s :: Posix.split t.
Proof.
  induction s as [|c s IH]; intros Hs; [done|].
  rewrite str_app_cons. cbn in *.
  apply andb_true_iff in Hs as [Hc Hs]. unfold plain in Hc.
  apply andb_true_iff in Hc as [Hc _]. apply negb_true_iff in Hc.
  by rewrite Hc, (IH Hs).
Qed.


Lemma prefix_slash_cons (c : ascii) (s : string) :
  Ascii.eqb c "/" = false -> String.prefix "/" (String c s) = false.
Proof.
  intros Hc. cbn [String.prefix].
  destruct (ascii_dec "/" c) as [<-|_]; [discriminate Hc|reflexivity].
Qed.

Lemma upload_path_verbatim (w : world) (user_id : Z) (filename : string) :
  upload_path w user_id filename =
    "uploads/" +:+ Py.str_of_int user_id +:+ "_" +:+ Py.str_of_int (unix_seconds w)
      +:+ "_" +:+ filename.
Proof.
  unfold upload_path, path_join, safe_filename.
  destruct (str_of_int_plain user_id) as [Hplain Hne].
  destruct (Py.str_of_int user_id) as [|c digits]; [done|].
  rewrite str_app_cons. cbn in Hplain.
  apply andb_true_iff in Hplain as [Hc _]. unfold plain in Hc.
  apply andb_true_iff in Hc as [Hc _]. apply negb_true_iff in Hc.
  by rewrite (prefix_slash_cons c _ Hc).
Qed.

(** * Further properties of the handlers *)

(** ** The full analysis *)

Lemma analyze_with_gemini_rest_exact (w : world) (text kind : string) (st : state) :
  analyze_with_gemini_rest w text kind st =
    (Ok (degrade (generate_content w (length (gemini_calls st))
                    (instruction kind +:+ Py.nl +:+ Py.nl +:+ Py.slice_to TEXT_LIMIT text))),
     State (users st) (papers st) (disk st)
           (gemini_calls st ++
              [instruction kind +:+ Py.nl +:+ Py.nl +:+ Py.slice_to TEXT_LIMIT text])).
Proof.
  unfold analyze_with_gemini_rest. rewrite gemini_prompt_instruction.
  monad_unfold. cbn.
  by destruct (generate_content w _ _).
Qed.

(** X1: [analyze_paper_with_ai] never raises and touches nothing but the
    trace of calls.  For a text that is empty or shorter than 100
    characters it calls nobody and every field is the fixed error text;
    otherwise it makes exactly five calls, in the order summary, key
    findings, methodology, research gaps, future work, and every field is
    what the provider generated for its call, or [Error: ] followed by the
    text of the exception when that call failed: a failure of one call
    does not stop the others. *)
Theorem analyze_paper_with_ai_calls (w : world) (text : string) (st : state) :
  let n := length (gemini_calls st) in
  let ask i kind :=
    degrade (generate_content w (n + i)
               (instruction kind +:+ Py.nl +:+ Py.nl +:+ Py.slice_to TEXT_LIMIT text)) in
  exists a,
    analyze_paper_with_ai w text st =
      (Ok a, State (users st) (papers st) (disk st)
                   (gemini_calls st ++ if too_short text then [] else analysis_prompts text))
    /\ a = if too_short text
           then Analysis NO_TEXT NO_TEXT NO_TEXT NO_TEXT NO_TEXT
           else Analysis (ask 0%nat "summary") (ask 1%nat "key_findings")
                         (ask 2%nat "methodology") (ask 3%nat "research_gaps")
                         (ask 4%nat "future_work").
Proof.
  intros n ask. unfold analyze_paper_with_ai.
  destruct (too_short text).
  - eexists. split; [|reflexivity]. rewrite app_nil_r. by destruct st.
  - eexists. split; [|reflexivity].
    unfold mbind, M_bind, mret, M_ret.
    repeat (rewrite analyze_with_gemini_rest_exact; cbn [users papers disk gemini_calls]).
    rewrite !length_app. cbn [length].
    unfold analysis_prompts, known_kinds, ask, n. cbn [map].
    rewrite <- !app_assoc. cbn [app].
    rewrite Nat.add_0_r.
    replace (length (gemini_calls st) + 1 + 1 + 1 + 1)%nat
      with (length (gemini_calls st) + 4)%nat by lia.
    replace (length (gemini_calls st) + 1 + 1 + 1)%nat
      with (length (gemini_calls st) + 3)%nat by lia.
    replace (length (gemini_calls st) + 1 + 1)%nat
      with (length (gemini_calls st) + 2)%nat by lia.
    reflexivity.
Qed.

Lemma analyze_paper_with_ai_frame (w : world) (text : string) (st st' : state)
    (o : outcome analysis) :
  analyze_paper_with_ai w text st = (o, st') ->
  users st' = users st /\ papers st' = papers st /\ disk st' = disk st.
Proof.
  intros Hrun.
  destruct (analyze_paper_with_ai_calls w text st) as (a & Ha & _).
  rewrite Ha in Hrun. by simplify_eq.
Qed.

(** ** What a request changes *)

(** Unfolds the operations of the monad, the derived ones first. *)
Ltac monad_run :=
  unfold lift_outcome, may_raise, gets, modify, try_except, internal_error in *;
  unfold mbind, M_bind, mret, M_ret, mthrow, M_throw in *;
  cbn in *.

Lemma head_filter_Some {A} (P : A -> Prop) `{forall x, Decision (P x)} (l : list A) (x : A) :
  head (filter P l) = Some x -> x ∈ l /\ P x.
Proof.
  intros Hhead.
  assert (Hx : x ∈ filter P l).
  { destruct (filter P l) as [|y rest]; [done|]. cbn in Hhead. simplify_eq. left. }
  apply list_elem_of_filter in Hx. tauto.
Qed.

Lemma head_filter_None {A} (P : A -> Prop) `{forall x, Decision (P x)} (l : list A) :
  head (filter P l) = None <-> forall x, x ∈ l -> ~ P x.
Proof.
  split.
  - intros Hhead x Hx HP.
    assert (Hin : x ∈ filter P l) by (apply list_elem_of_filter; done).
    destruct (filter P l); [by apply elem_of_nil in Hin|done].
  - intros Hnone. destruct (filter P l) as [|y rest] eqn:Hf; [done|].
    assert (Hy : y ∈ filter P l) by (rewrite Hf; left).
    apply list_elem_of_filter in Hy as [HP Hy]. by destruct (Hnone y Hy).
Qed.

Lemma try_block_effect (w : world) (req : request) (st st' : state)
    (o : outcome response) :
  try_block w req st = (o, st') -> effect (identity_of req) st st'.
Proof.
  destruct req; cbn; intros Htry.
  - unfold signup_try, item, add_user in Htry. monad_run.
    repeat case_match; simplify_eq; try (by apply effect_none).
    eapply effect_new_user; cbn; try done.
  - unfold login_try, item in Htry. monad_run.
    repeat case_match; simplify_eq; by apply effect_none.
  - unfold get_user_try in Htry. monad_run.
    repeat case_match; simplify_eq; by apply effect_none.
  - unfold get_papers_try in Htry. monad_run.
    simplify_eq. by apply effect_none.
  - unfold upload_paper_try, save, open_rb, add_paper in Htry. monad_run.
    destruct (User_get st identity) as [user|] eqn:Huser;
      [|simplify_eq; by apply effect_none].
    destruct (negb (User.is_premium user)
              && (3 <=? Z.of_nat (length (Paper_by_user st identity))))%bool eqn:Hgate;
      [simplify_eq; by apply effect_none|].
    repeat case_match; simplify_eq; try (by apply effect_none);
      match goal with
      | H : analyze_paper_with_ai _ _ _ = _ |- _ =>
          apply analyze_paper_with_ai_frame in H as (Hu & Hp & _); cbn in Hu, Hp
      end;
      try (by apply effect_none).
    eapply (effect_new_paper _ _ _ _ user);
      [exact Hu|cbn; rewrite Hp; reflexivity|reflexivity|reflexivity
      |exact Huser|].
    cbn. apply andb_false_iff in Hgate as [Hprem|Hcount].
    + left. by apply negb_false_iff.
    + right. apply Z.leb_gt in Hcount. lia.
  - unfold get_paper_try, Paper_first_by_id_user in Htry. monad_run.
    repeat case_match; simplify_eq; by apply effect_none.
  - unfold delete_paper_try, Paper_first_by_id_user, remove, drop_paper in Htry.
    monad_run.
    destruct (bindable st paper_id); [|simplify_eq; by apply effect_none].
    destruct (Paper_by_id_user st paper_id identity) as [paper|] eqn:Hfound;
      [|simplify_eq; by apply effect_none].
    apply head_filter_Some in Hfound as (Hin & Hid & Howner).
    repeat case_match; simplify_eq; try (by apply effect_none);
      by apply (effect_drop _ _ _ paper).
  - unfold create_checkout_session_try in Htry. monad_run.
    repeat case_match; simplify_eq; by apply effect_none.
Qed.

Lemma handle_effect (w : world) (req : request) (st : state) :
  effect (identity_of req) st (snd (handle w req st)).
Proof.
  rewrite handle_try_except.
  destruct (try_except_cases (try_block w req) (exception_status req) st)
    as [(r & st' & Htry & Hrun)|(e & st' & Htry & Hrun)];
    rewrite Hrun; cbn; by eapply try_block_effect.
Qed.

(** ** The integrity of the store *)

Lemma next_id_bound (ids : list Z) (x : Z) : x ∈ ids -> x < next_id ids.
Proof.
  unfold next_id. induction ids as [|y ids IH]; intros Hx.
  - by apply elem_of_nil in Hx.
  - cbn. apply elem_of_cons in Hx as [->|Hx]; [lia|]. specialize (IH Hx). lia.
Qed.

Lemma next_id_fresh (ids : list Z) : next_id ids ∉ ids.
Proof. intros Hin. apply next_id_bound in Hin. lia. Qed.

Lemma elem_of_map {A B} (f : A -> B) (l : list A) (y : B) :
  y ∈ map f l <-> exists x, x ∈ l /\ f x = y.
Proof.
  rewrite list_elem_of_In, in_map_iff. split; intros (x & H1 & H2); exists x.
  - by rewrite list_elem_of_In.
  - by rewrite <- list_elem_of_In.
Qed.

Lemma NoDup_map_snoc {A B} (f : A -> B) (l : list A) (x : A) :
  NoDup (map f l) -> f x ∉ map f l -> NoDup (map f (l ++ [x])).
Proof.
  intros Hl Hx. rewrite map_app. apply NoDup_app. split; [done|]. split.
  - intros y Hy Hyx. cbn in Hyx. apply list_elem_of_singleton in Hyx. by subst.
  - cbn. apply NoDup_singleton.
Qed.

Lemma NoDup_map_filter {A B} (f : A -> B) (P : A -> Prop) `{forall x, Decision (P x)}
    (l : list A) :
  NoDup (map f l) -> NoDup (map f (filter P l)).
Proof.
  induction l as [|x l IH]; [done|]. intros Hnd.
  change (map f (x :: l)) with (f x :: map f l) in Hnd.
  apply NoDup_cons in Hnd as [Hx Hl].
  rewrite filter_cons. destruct (decide (P x)); [|by apply IH].
  change (map f (x :: filter P l)) with (f x :: map f (filter P l)).
  apply NoDup_cons. split; [|by apply IH].
  intros Hin. apply Hx. apply elem_of_map in Hin as (y & Hy & Hfy).
  apply list_elem_of_filter in Hy as [_ Hy]. apply elem_of_map. by exists y.
Qed.

(** Two rows with the same key are the same row. *)
Lemma NoDup_map_inj {A B} (f : A -> B) (l : list A) (x y : A) :
  NoDup (map f l) -> x ∈ l -> y ∈ l -> f x = f y -> x = y.
Proof.
  induction l as [|z l IH]; intros Hnd Hx Hy Hf; [by apply elem_of_nil in Hx|].
  cbn in Hnd. apply NoDup_cons in Hnd as [Hz Hl].
  apply elem_of_cons in Hx as [->|Hx]; apply elem_of_cons in Hy as [->|Hy].
  - done.
  - destruct Hz. apply elem_of_map. by exists y.
  - destruct Hz. apply elem_of_map. by exists x.
  - by apply IH.
Qed.

Lemma length_filter_filter {A} (P Q : A -> Prop)
    `{forall x, Decision (P x)} `{forall x, Decision (Q x)} (l : list A) :
  (length (filter Q (filter P l)) <= length (filter Q l))%nat.
Proof.
  induction l as [|x l IH]; [done|].
  rewrite (filter_cons P). destruct (decide (P x)).
  - rewrite !(filter_cons Q). destruct (decide (Q x)); cbn; lia.
  - rewrite (filter_cons Q). destruct (decide (Q x)); cbn; lia.
Qed.

Lemma effect_consistent (who : option Z) (st st' : state) :
  effect who st st' -> consistent st -> consistent st'.
Proof.
  intros Heff [Huid Hmail Hpid Hown Hquota].
  destruct Heff as [Hu Hp|u Hu Hp Hid Hnew Hfree|p owner Hu Hp Hid _ Howner Hroom
                   |gone Hu Hp Hin _].
  - split; unfold Paper_by_user in *; rewrite ?Hu, ?Hp; done.
  - split; unfold Paper_by_user in *; rewrite ?Hu, ?Hp; try done.
    + apply NoDup_map_snoc; [done|]. rewrite Hid. apply next_id_fresh.
    + apply NoDup_map_snoc; [done|]. intros Hin.
      apply elem_of_map in Hin as (v & Hv & Hmv).
      unfold User_by_email in Hnew.
      by apply (proj1 (head_filter_None _ _) Hnew v Hv).
    + intros p Hp'. destruct (Hown p Hp') as (v & Hv & Hvp).
      exists v. split; [|done]. apply elem_of_app. by left.
    + intros v Hv Hvfree. apply elem_of_app in Hv as [Hv|Hv]; [by apply Hquota|].
      apply list_elem_of_singleton in Hv as ->.
      assert (Hnone : filter (fun p => Paper.user_id p = User.id u) (papers st) = []).
      { destruct (filter _ (papers st)) as [|p rest] eqn:Hrows; [done|].
        assert (Hp' : p ∈ filter (fun p => Paper.user_id p = User.id u) (papers st))
          by (rewrite Hrows; left).
        apply list_elem_of_filter in Hp' as [Hpu Hp'].
        destruct (Hown p Hp') as (v & Hv & Hvp).
        assert (Hlt : User.id v < next_id (map User.id (users st))).
        { apply next_id_bound, elem_of_map. by exists v. }
        lia. }
      rewrite Hnone. cbn. lia.
  - assert (Howner' : owner ∈ users st /\ User.id owner = Paper.user_id p).
    { unfold User_get in Howner. by apply head_filter_Some in Howner. }
    destruct Howner' as [Howner_in Howner_id].
    split; unfold Paper_by_user in *; rewrite ?Hu, ?Hp; try done.
    + apply NoDup_map_snoc; [done|]. rewrite Hid. apply next_id_fresh.
    + intros q Hq. apply elem_of_app in Hq as [Hq|Hq]; [by apply Hown|].
      apply list_elem_of_singleton in Hq as ->. by exists owner.
    + intros v Hv Hvfree. rewrite filter_app, length_app.
      specialize (Hquota v Hv Hvfree).
      destruct (decide (Paper.user_id p = User.id v)) as [Hpv|Hpv].
      * assert (v = owner) as ->.
        { apply (NoDup_map_inj User.id (users st)); [done..|congruence]. }
        destruct Hroom as [Hprem|Hroom]; [congruence|].
        rewrite <- Hpv. rewrite filter_cons_True by done. cbn. lia.
      * rewrite filter_cons_False by done. cbn. lia.
  - split; unfold Paper_by_user in *; rewrite ?Hu, ?Hp; try done.
    + by apply NoDup_map_filter.
    + intros q Hq. apply list_elem_of_filter in Hq as [_ Hq]. by apply Hown.
    + intros v Hv Hvfree. specialize (Hquota v Hv Hvfree).
      etrans; [|exact Hquota]. apply length_filter_filter.
Qed.

(** X2: no request breaks the integrity of the store.  Whatever the
    request and whatever the world does (failures of the disk, of the
    provider, of the commit), if before it primary keys and emails are
    unique, every paper has its owner and no user of the free tier holds
    more than three papers, then the same holds after it. *)
Theorem handle_keeps_consistent (w : world) (req : request) (st : state) :
  consistent st -> consistent (snd (handle w req st)).
Proof. apply effect_consistent with (identity_of req), handle_effect. Qed.

Lemma ann_store_consistent : consistent (ann_store 2).
Proof.
  split.
  - cbn. apply NoDup_singleton.
  - cbn. apply NoDup_singleton.
  - apply (bool_decide_unpack _). by vm_compute.
  - intros p Hp. exists ann. split; [left|].
    cbn in Hp. repeat (apply elem_of_cons in Hp as [->|Hp]; [done|]).
    by apply elem_of_nil in Hp.
  - intros u Hu _. apply list_elem_of_singleton in Hu as ->. vm_compute. lia.
Qed.

Lemma handle_keeps_consistent_witness :
  consistent (snd (handle readable_world (UploadPaper 1 (upload_of "owls.pdf"))
                     (ann_store 2))).
Proof.
  apply (handle_keeps_consistent readable_world (UploadPaper 1 (upload_of "owls.pdf"))
           (ann_store 2)).
  exact ann_store_consistent.
Defined.

Lemma serve_keeps_consistent (reqs : list (world * request)) (st : state) :
  consistent st -> consistent (serve reqs st).
Proof.
  revert st. induction reqs as [|[w req] reqs IH]; intros st Hst; [done|].
  cbn. apply IH. apply effect_consistent with (identity_of req) st; [|done].
  apply handle_effect.
Qed.

(** X3: starting from the empty store of a fresh installation, after any
    sequence of requests served in any worlds, every user holds at most
    three papers (no request makes a user premium), no two users share an
    email or a key, no two papers share a key, and every paper has its
    owner. *)
Theorem reachable_store_consistent (reqs : list (world * request)) :
  consistent (serve reqs empty_store)
  /\ (forall u, u ∈ users (serve reqs empty_store) ->
        User.is_premium u = false
        /\ (length (Paper_by_user (serve reqs empty_store) (User.id u)) <= 3)%nat).
Proof.
  assert (Hfree : forall st, (forall u, u ∈ users st -> User.is_premium u = false) ->
            forall u, u ∈ users (serve reqs st) -> User.is_premium u = false).
  { induction reqs as [|[w req] reqs IH]; intros st Hst; [done|].
    cbn. apply IH. intros u Hu.
    destruct (handle_effect w req st) as [Hus _|v Hus _ _ _ Hv|p owner Hus _ _ _ _ _
                                         |gone Hus _ _ _];
      rewrite Hus in Hu; try by apply Hst.
    apply elem_of_app in Hu as [Hu|Hu]; [by apply Hst|].
    by apply list_elem_of_singleton in Hu as ->. }
  assert (Hcons : consistent (serve reqs empty_store)).
  { apply serve_keeps_consistent. split; cbn; try apply NoDup_nil_2.
    - intros p Hp. by apply elem_of_nil in Hp.
    - intros u Hu. by apply elem_of_nil in Hu. }
  split; [exact Hcons|].
  intros u Hu.
  assert (Hu_free : User.is_premium u = false).
  { apply (Hfree empty_store); [|done]. intros v Hv. by apply elem_of_nil in Hv. }
  split; [done|]. by apply (free_quota _ Hcons).
Qed.

Lemma reachable_store_consistent_witness :
  User.is_premium (User.mk 1 "bob@example.org" "$2b$hunter2" "Bob" false None None
                     1700000001000000) = false
  /\ (length (Paper_by_user
               (serve [(quiet_world (Ok []),
                        Signup {[ "email" := "bob@example.org"; "password" := "hunter2";
                                  "name" := "Bob" ]})] empty_store) 1) <= 3)%nat.
Proof.
  apply (proj2 (reachable_store_consistent
                  [(quiet_world (Ok []),
                    Signup {[ "email" := "bob@example.org"; "password" := "hunter2";
                              "name" := "Bob" ]})])
           (User.mk 1 "bob@example.org" "$2b$hunter2" "Bob" false None None
              1700000001000000)).
  vm_compute. left.
Defined.

Lemma filter_filter_within {A} (P Q : A -> Prop)
    `{forall x, Decision (P x)} `{forall x, Decision (Q x)} (l : list A) :
  (forall x, x ∈ l -> Q x -> P x) -> filter Q (filter P l) = filter Q l.
Proof.
  induction l as [|x l IH]; intros Himp; [done|].
  assert (Hl : forall y, y ∈ l -> Q y -> P y) by (intros y Hy; apply Himp; by right).
  rewrite (filter_cons P). destruct (decide (P x)) as [HP|HP].
  - rewrite !(filter_cons Q). destruct (decide (Q x)); by rewrite IH.
  - rewrite (filter_cons Q). destruct (decide (Q x)) as [HQ|HQ]; [|by apply IH].
    destruct HP. apply Himp; [left|done].
Qed.

(** X4: a request touches only the papers of the user it is made for.
    When paper keys are unique, the papers of every user other than the
    one whose token the request carries are, after the request, what they
    were before it; and no request removes or changes a user row. *)
Theorem handle_isolates_users (w : world) (req : request) (st : state) :
  NoDup (map Paper.id (papers st)) ->
  (forall v, identity_of req <> Some v ->
     Paper_by_user (snd (handle w req st)) v = Paper_by_user st v)
  /\ (forall u, u ∈ users st -> u ∈ users (snd (handle w req st))).
Proof.
  intros Hkeys.
  destruct (handle_effect w req st) as [Hu Hp|u Hu Hp _ _ _|p owner Hu Hp _ Hwho _ _
                                       |gone Hu Hp Hin Hwho];
    unfold Paper_by_user; rewrite Hu, Hp; (split; [intros v Hv|intros x Hx]); try done.
  - apply elem_of_app. by left.
  - rewrite filter_app, filter_cons_False, filter_nil, app_nil_r; [done|].
    intros Hpv. apply Hv. by rewrite Hwho, Hpv.
  - apply filter_filter_within. intros q Hq Hqv Hid.
    assert (q = gone) as -> by by apply (NoDup_map_inj Paper.id (papers st)).
    apply Hv. by rewrite Hwho, Hqv.
Qed.

Lemma handle_isolates_users_witness :
  Paper_by_user (snd (handle (quiet_world (Ok [])) (DeletePaper 2 1) owl_store)) 1
    = Paper_by_user owl_store 1.
Proof.
  apply (handle_isolates_users (quiet_world (Ok [])) (DeletePaper 2 1) owl_store).
  - apply (bool_decide_unpack _). by vm_compute.
  - discriminate.
Defined.

(** ** Signup and login *)

(** X5: a signup with an email that is already registered is answered
    with 400 "Email already exists" and stores nothing: no second row, and
    the password is not even looked at. *)
Theorem signup_existing_email (w : world) (data : gmap string string) (st : state)
    (email : string) (user : User.t) :
  data !! "email" = Some email ->
  User_by_email st email = Some user ->
  signup w data st = (Ok (error_response "Email already exists" 400), st).
Proof.
  intros Hemail Huser. unfold signup, signup_try, item. monad_run.
  by rewrite Hemail, Huser.
Qed.

Lemma signup_existing_email_witness :
  signup (quiet_world (Ok [])) {[ "email" := "ann@example.org" ]} (ann_store 0)
    = (Ok (error_response "Email already exists" 400), ann_store 0).
Proof.
  apply (signup_existing_email (quiet_world (Ok [])) {[ "email" := "ann@example.org" ]}
           (ann_store 0) "ann@example.org" ann); reflexivity.
Defined.

(** X6: signup and login fit together.  A signup with a fresh email, a
    complete body, a password that bcrypt hashes and a commit that passes
    is answered with 201 and adds exactly one row, which holds the hash
    (not the password), is not premium and has a key larger than every key
    before it; a login with the same body, for which bcrypt accepts the
    password against that hash, is then answered with 200, the new user
    and a token issued for the decimal text of its key. *)
Theorem signup_then_login (w w' : world) (data : gmap string string) (st : state)
    (email password name hashed : string) :
  data !! "email" = Some email ->
  data !! "password" = Some password ->
  data !! "name" = Some name ->
  User_by_email st email = None ->
  generate_password_hash w password = Ok hashed ->
  commit_error w = None ->
  check_password_hash w' hashed password = Ok true ->
  exists r st' user,
    signup w data st = (Ok r, st')
    /\ status r = 201
    /\ users st' = users st ++ [user]
    /\ papers st' = papers st
    /\ user = User.mk (next_id (map User.id (users st))) email hashed name false
                      None None (utcnow_default w)
    /\ login w' data st'
       = (Ok (Response (JDict [("access_token",
                                JStr (create_access_token w' (Py.str_of_int (User.id user))));
                               ("user", user_json user)]) 200), st').
Proof.
  intros Hemail Hpassword Hname Hfresh Hhash Hcommit Hcheck.
  eexists _, _, _. split; [|split; [|split; [|split; [|split]]]].
  - unfold signup, signup_try, item, add_user. monad_run.
    rewrite Hemail, Hfresh, Hpassword, Hhash, Hname, Hcommit. reflexivity.
  - reflexivity.
  - reflexivity.
  - reflexivity.
  - reflexivity.
  - unfold login, login_try, item. monad_run. rewrite Hemail, Hpassword.
    unfold User_by_email in *. cbn. rewrite filter_app.
    assert (Hnone : filter (fun u => User.email u = email) (users st) = []).
    { destruct (filter _ (users st)); [done|discriminate]. }
    rewrite Hnone, filter_cons_True by done. cbn. by rewrite Hcheck.
Qed.

Lemma signup_then_login_witness :
  exists r st' user,
    signup (quiet_world (Ok []))
      {[ "email" := "bob@example.org"; "password" := "hunter2"; "name" := "Bob" ]}
      (ann_store 0) = (Ok r, st')
    /\ status r = 201
    /\ users st' = users (ann_store 0) ++ [user]
    /\ papers st' = papers (ann_store 0)
    /\ user = User.mk (next_id (map User.id (users (ann_store 0)))) "bob@example.org"
                      "$2b$hunter2" "Bob" false None None
                      (utcnow_default (quiet_world (Ok [])))
    /\ login (quiet_world (Ok []))
         {[ "email" := "bob@example.org"; "password" := "hunter2"; "name" := "Bob" ]} st'
       = (Ok (Response (JDict [("access_token",
                                JStr (create_access_token (quiet_world (Ok []))
                                        (Py.str_of_int (User.id user))));
                               ("user", user_json user)]) 200), st').
Proof.
  apply (signup_then_login (quiet_world (Ok [])) (quiet_world (Ok []))
           {[ "email" := "bob@example.org"; "password" := "hunter2"; "name" := "Bob" ]}
           (ann_store 0) "bob@example.org" "hunter2" "Bob" "$2b$hunter2");
    reflexivity.
Defined.

(** X7: a login whose body has no ['password'] tells a registered email
    from an unknown one.  For an unknown email the password is never
    looked up and the answer is the usual 401; for a registered email the
    lookup raises a [KeyError] and the answer is 500 with its text.  The
    state is unchanged in both cases. *)
Theorem login_without_password (w : world) (data : gmap string string) (st : state)
    (email : string) :
  data !! "email" = Some email ->
  data !! "password" = None ->
  login w data st =
    (Ok (match User_by_email st email with
         | Some _ => error_response "'password'" 500
         | None => error_response "Invalid credentials" 401
         end), st).
Proof.
  intros Hemail Hpassword. unfold login, login_try, item. monad_run.
  rewrite Hemail. destruct (User_by_email st email); [|done].
  by rewrite Hpassword.
Qed.

Lemma login_without_password_witness :
  login (quiet_world (Ok [])) {[ "email" := "ann@example.org" ]} (ann_store 0)
    = (Ok (error_response "'password'" 500), ann_store 0).
Proof.
  apply (login_without_password (quiet_world (Ok [])) {[ "email" := "ann@example.org" ]}
           (ann_store 0) "ann@example.org"); reflexivity.
Defined.

(** ** The upload pipeline *)

Lemma too_short_false (text : string) : 100 <= Py.len text -> too_short text = false.
Proof.
  intros Hlong. unfold too_short. apply orb_false_iff. split.
  - destruct text; [vm_compute in Hlong; by destruct Hlong|done].
  - by apply Z.ltb_ge.
Qed.

(** The run of an upload that passes every check. *)
Lemma upload_paper_run (w : world) (st : state) (user_id : Z)
    (files : gmap string FileStorage.t) (user : User.t) (file : FileStorage.t) :
  User_get st user_id = Some user ->
  (User.is_premium user = true \/ Z.of_nat (length (Paper_by_user st user_id)) < 3) ->
  files !! "file" = Some file ->
  FileStorage.filename file <> "" ->
  Py.endswith (Py.lower (FileStorage.filename file)) ".pdf" = true ->
  makedirs_error w = None ->
  save_error w (upload_path w user_id (FileStorage.filename file)) = None ->
  100 <= Py.len (extract_text_from_pdf w (FileStorage.stream file)) ->
  commit_error w = None ->
  let text := extract_text_from_pdf w (FileStorage.stream file) in
  let filepath := upload_path w user_id (FileStorage.filename file) in
  let ask i kind :=
    degrade (generate_content w (length (gemini_calls st) + i)
               (instruction kind +:+ Py.nl +:+ Py.nl +:+ Py.slice_to TEXT_LIMIT text)) in
  let paper :=
    Paper.mk (next_id (map Paper.id (papers st))) user_id
      (Py.replace (FileStorage.filename file) ".pdf" "") (FileStorage.filename file)
      filepath
      (Some (ask 0%nat "summary")) (Some (ask 3%nat "research_gaps"))
      (Some (ask 4%nat "future_work")) (Some (ask 1%nat "key_findings"))
      (Some (ask 2%nat "methodology")) (utcnow_default w) in
  exists r,
    upload_paper w user_id files st =
      (Ok r, State (users st) (papers st ++ [paper])
                   (<[filepath := FileStorage.stream file]> (disk st))
                   (gemini_calls st ++ analysis_prompts text))
    /\ status r = 201
    /\ json_field "paper_id" (body r) = Some (JInt (Paper.id paper)).
Proof.
  intros Huser Hquota Hfile Hname Hpdf Hmk Hsave Hlong Hcommit text filepath ask paper.
  assert (Hgate : (negb (User.is_premium user)
             && (3 <=? Z.of_nat (length (Paper_by_user st user_id))))%bool = false).
  { destruct Hquota as [->|Hlt]; [done|].
    apply andb_false_iff. right. by apply Z.leb_gt. }
  assert (Hts : too_short text = false) by by apply too_short_false.
  apply String.eqb_neq in Hname.
  eexists. split; [|split].
  - unfold upload_paper, upload_paper_try, save, open_rb, add_paper.
    unfold lift_outcome, may_raise, gets, modify, try_except, internal_error.
    unfold mbind, M_bind, mret, M_ret, mthrow, M_throw.
    rewrite Huser. cbn [users papers disk gemini_calls].
    rewrite Hgate, Hfile, Hname, Hpdf, Hmk, Hsave.
    cbn [negb users papers disk gemini_calls].
    rewrite lookup_insert_eq. fold text. rewrite Hts.
    destruct (analyze_paper_with_ai_calls w text
                (State (users st) (papers st)
                   (<[upload_path w user_id (FileStorage.filename file)
                      := FileStorage.stream file]> (disk st)) (gemini_calls st)))
      as (a & Hrun & Ha).
    rewrite Hts in Hrun, Ha. cbn [users papers disk gemini_calls] in Hrun, Ha.
    rewrite Hrun, Hcommit. cbn [users papers disk gemini_calls]. subst a.
    cbn [a_summary a_key_findings a_methodology a_research_gaps a_future_work].
    reflexivity.
  - reflexivity.
  - reflexivity.
Qed.

(** X8: an upload that passes every check (the user exists and has room
    or is premium, the part [file] is there with a name ending in [.pdf]
    in any case, the disk and the commit do not fail, the extracted text
    has 100 characters or more) is answered with 201 whatever the provider
    does.  It adds exactly one paper, owned by the uploader, with a key
    larger than every key before it, the filename as sent and the path the
    bytes were written to; it sends the five prompts of the text, in
    order, and none of the five analysis fields is null; the users are
    untouched. *)
Theorem upload_paper_stores_one (w : world) (st : state) (user_id : Z)
    (files : gmap string FileStorage.t) (user : User.t) (file : FileStorage.t) :
  User_get st user_id = Some user ->
  (User.is_premium user = true \/ Z.of_nat (length (Paper_by_user st user_id)) < 3) ->
  files !! "file" = Some file ->
  FileStorage.filename file <> "" ->
  Py.endswith (Py.lower (FileStorage.filename file)) ".pdf" = true ->
  makedirs_error w = None ->
  save_error w (upload_path w user_id (FileStorage.filename file)) = None ->
  100 <= Py.len (extract_text_from_pdf w (FileStorage.stream file)) ->
  commit_error w = None ->
  exists r st' paper,
    upload_paper w user_id files st = (Ok r, st')
    /\ status r = 201
    /\ json_field "paper_id" (body r) = Some (JInt (Paper.id paper))
    /\ users st' = users st
    /\ papers st' = papers st ++ [paper]
    /\ (forall p, p ∈ papers st -> Paper.id p < Paper.id paper)
    /\ Paper.user_id paper = user_id
    /\ Paper.filename paper = FileStorage.filename file
    /\ Paper.filepath paper = upload_path w user_id (FileStorage.filename file)
    /\ disk st' !! Paper.filepath paper = Some (FileStorage.stream file)
    /\ gemini_calls st' = gemini_calls st
         ++ analysis_prompts (extract_text_from_pdf w (FileStorage.stream file))
    /\ is_Some (Paper.summary paper) /\ is_Some (Paper.key_findings paper)
    /\ is_Some (Paper.methodology paper) /\ is_Some (Paper.research_gaps paper)
    /\ is_Some (Paper.future_work paper).
Proof.
  intros Huser Hquota Hfile Hname Hpdf Hmk Hsave Hlong Hcommit.
  destruct (upload_paper_run w st user_id files user file
              Huser Hquota Hfile Hname Hpdf Hmk Hsave Hlong Hcommit)
    as (r & Hrun & Hstatus & Hid).
  eexists r, _, _. split; [exact Hrun|].
  repeat split; try done; cbn.
  - intros p Hp. apply next_id_bound, elem_of_map. by exists p.
  - apply lookup_insert_eq.
Qed.

Lemma upload_paper_stores_one_witness :
  exists r st' paper,
    upload_paper readable_world 1 (upload_of "owls.pdf") (ann_store 2) = (Ok r, st')
    /\ status r = 201
    /\ json_field "paper_id" (body r) = Some (JInt (Paper.id paper))
    /\ users st' = users (ann_store 2)
    /\ papers st' = papers (ann_store 2) ++ [paper]
    /\ (forall p, p ∈ papers (ann_store 2) -> Paper.id p < Paper.id paper)
    /\ Paper.user_id paper = 1
    /\ Paper.filename paper = "owls.pdf"
    /\ Paper.filepath paper = upload_path readable_world 1 "owls.pdf"
    /\ disk st' !! Paper.filepath paper = Some []
    /\ gemini_calls st' = gemini_calls (ann_store 2)
         ++ analysis_prompts (extract_text_from_pdf readable_world [])
    /\ is_Some (Paper.summary paper) /\ is_Some (Paper.key_findings paper)
    /\ is_Some (Paper.methodology paper) /\ is_Some (Paper.research_gaps paper)
    /\ is_Some (Paper.future_work paper).
Proof.
  apply (upload_paper_stores_one readable_world (ann_store 2) 1 (upload_of "owls.pdf")
           ann (FileStorage.mk "owls.pdf" [])).
  - reflexivity.
  - right. vm_compute. reflexivity.
  - reflexivity.
  - discriminate.
  - reflexivity.
  - reflexivity.
  - reflexivity.
  - vm_compute. discriminate.
  - reflexivity.
Defined.

(** X9: what an upload stores can be read back.  After an upload that
    passes every check, the single-paper view asked by the uploader for
    the key given in the answer returns 200 and the stored record, with
    the analysis of the answer; asked by anybody else it returns 404. *)
Theorem upload_then_get_paper (w w' : world) (st : state) (user_id : Z)
    (files : gmap string FileStorage.t) (user : User.t) (file : FileStorage.t) :
  User_get st user_id = Some user ->
  (User.is_premium user = true \/ Z.of_nat (length (Paper_by_user st user_id)) < 3) ->
  files !! "file" = Some file ->
  FileStorage.filename file <> "" ->
  Py.endswith (Py.lower (FileStorage.filename file)) ".pdf" = true ->
  makedirs_error w = None ->
  save_error w (upload_path w user_id (FileStorage.filename file)) = None ->
  100 <= Py.len (extract_text_from_pdf w (FileStorage.stream file)) ->
  commit_error w = None ->
  exists r st' paper paper_id,
    upload_paper w user_id files st = (Ok r, st')
    /\ json_field "paper_id" (body r) = Some (JInt paper_id)
    /\ paper ∈ papers st'
    /\ get_paper w' user_id paper_id st' = (Ok (Response (paper_json w' paper) 200), st')
    /\ json_field "analysis" (body r)
       = Some (JDict [("summary", json_of_text (Paper.summary paper));
                      ("key_findings", json_of_text (Paper.key_findings paper));
                      ("methodology", json_of_text (Paper.methodology paper));
                      ("research_gaps", json_of_text (Paper.research_gaps paper));
                      ("future_work", json_of_text (Paper.future_work paper))])
    /\ (forall other, other <> user_id ->
          get_paper w' other paper_id st'
            = (Ok (error_response "Paper not found" 404), st')).
Proof.
  intros Huser Hquota Hfile Hname Hpdf Hmk Hsave Hlong Hcommit.
  assert (Hts := too_short_false _ Hlong).
  destruct (upload_paper_run w st user_id files user file
              Huser Hquota Hfile Hname Hpdf Hmk Hsave Hlong Hcommit)
    as (r & Hrun & Hstatus & Hid).
  set (paper := Paper.mk (next_id (map Paper.id (papers st))) _ _ _ _ _ _ _ _ _ _) in *.
  assert (Hold : forall uid,
            filter (fun p => Paper.id p = Paper.id paper /\ Paper.user_id p = uid)
                   (papers st) = []).
  { intros uid. destruct (filter _ (papers st)) as [|p rest] eqn:Hrows; [done|].
    assert (Hp : p ∈ filter (fun p => Paper.id p = Paper.id paper
                                      /\ Paper.user_id p = uid) (papers st))
      by (rewrite Hrows; left).
    apply list_elem_of_filter in Hp as [[Hpid _] Hp].
    assert (Paper.id p < Paper.id paper); [|lia].
    apply next_id_bound, elem_of_map. by exists p. }
  eexists r, _, paper, (Paper.id paper).
  split; [exact Hrun|]. split; [exact Hid|]. split; [|split; [|split]].
  - cbn. apply elem_of_app. right. left.
  - unfold get_paper, get_paper_try, try_except, mbind, M_bind.
    rewrite (Paper_first_found _ _ _ paper); [reflexivity|].
    unfold Paper_by_id_user. cbn [papers].
    by rewrite filter_app, Hold, filter_cons_True.
  - clear Hid. revert Hrun.
    unfold upload_paper, upload_paper_try, save, open_rb, add_paper.
    unfold lift_outcome, may_raise, gets, modify, try_except, internal_error.
    unfold mbind, M_bind, mret, M_ret, mthrow, M_throw.
    assert (Hgate : (negb (User.is_premium user)
               && (3 <=? Z.of_nat (length (Paper_by_user st user_id))))%bool = false).
    { destruct Hquota as [->|Hlt]; [done|].
      apply andb_false_iff. right. by apply Z.leb_gt. }
    apply String.eqb_neq in Hname.
    rewrite Huser. cbn [users papers disk gemini_calls].
    rewrite Hgate, Hfile, Hname, Hpdf, Hmk, Hsave.
    cbn [negb users papers disk gemini_calls].
    rewrite lookup_insert_eq, Hts.
    destruct (analyze_paper_with_ai_calls w
                (extract_text_from_pdf w (FileStorage.stream file))
                (State (users st) (papers st)
                   (<[upload_path w user_id (FileStorage.filename file)
                      := FileStorage.stream file]> (disk st)) (gemini_calls st)))
      as (a & Ha & Hfields).
    rewrite Hts in Ha, Hfields. cbn [users papers disk gemini_calls] in Ha, Hfields.
    rewrite Ha, Hcommit. cbn [users papers disk gemini_calls]. subst a.
    intros Hrun. injection Hrun as <-. reflexivity.
  - intros other Hother.
    unfold get_paper, get_paper_try, try_except, mbind, M_bind.
    rewrite Paper_first_bindable.
    + unfold Paper_by_id_user. cbn [papers].
      rewrite filter_app, Hold, filter_cons_False; [done|].
      intros [_ Hsame]. cbn in Hsame. by destruct Hother.
    + unfold bindable. apply orb_true_iff. right. apply bool_decide_eq_true.
      cbn [papers]. apply elem_of_map. exists paper. split; [|done].
      apply elem_of_app. right. left.
Qed.

Lemma upload_then_get_paper_witness :
  exists r st' paper paper_id,
    upload_paper readable_world 1 (upload_of "owls.pdf") (ann_store 2) = (Ok r, st')
    /\ json_field "paper_id" (body r) = Some (JInt paper_id)
    /\ paper ∈ papers st'
    /\ get_paper (quiet_world (Ok [])) 1 paper_id st'
       = (Ok (Response (paper_json (quiet_world (Ok [])) paper) 200), st')
    /\ json_field "analysis" (body r)
       = Some (JDict [("summary", json_of_text (Paper.summary paper));
                      ("key_findings", json_of_text (Paper.key_findings paper));
                      ("methodology", json_of_text (Paper.methodology paper));
                      ("research_gaps", json_of_text (Paper.research_gaps paper));
                      ("future_work", json_of_text (Paper.future_work paper))])
    /\ (forall other, other <> 1 ->
          get_paper (quiet_world (Ok [])) other paper_id st'
            = (Ok (error_response "Paper not found" 404), st')).
Proof.
  apply (upload_then_get_paper readable_world (quiet_world (Ok [])) (ann_store 2) 1
           (upload_of "owls.pdf") ann (FileStorage.mk "owls.pdf" [])).
  - reflexivity.
  - right. vm_compute. reflexivity.
  - reflexivity.
  - discriminate.
  - reflexivity.
  - reflexivity.
  - reflexivity.
  - vm_compute. discriminate.
  - reflexivity.
Defined.

(** X10: an upload that is refused before the file is saved writes
    nothing.  Whenever the answer is 404 (no such user), 403 (quota) or
    one of the three complaints about the file part, the state after the
    request is the state before it: no row, no file, no call to the
    provider. *)
Theorem upload_refusal_writes_nothing (w : world) (st st' : state) (user_id : Z)
    (files : gmap string FileStorage.t) (r : response) :
  upload_paper w user_id files st = (Ok r, st') ->
  status r = 404 \/ status r = 403
  \/ r = error_response "No file provided" 400
  \/ r = error_response "No file selected" 400
  \/ r = error_response "Only PDF files are allowed" 400 ->
  st' = st.
Proof.
  intros Hrun Hrefused.
  unfold upload_paper, upload_paper_try, save, open_rb, add_paper in Hrun. monad_run.
  repeat case_match; simplify_eq; try done;
    cbn in Hrefused; destruct Hrefused as [H|[H|[H|[H|H]]]]; try lia; discriminate.
Qed.

Lemma upload_refusal_writes_nothing_witness :
  snd (upload_paper readable_world 1 (upload_of "owls.docx") (ann_store 0)) = ann_store 0.
Proof.
  apply (upload_refusal_writes_nothing readable_world (ann_store 0) _ 1
           (upload_of "owls.docx") (error_response "Only PDF files are allowed" 400)).
  - reflexivity.
  - right; right; right; right. reflexivity.
Defined.

(** X11: the quota is the only cause of a 403, and an exact one.  For an
    existing user the upload is answered with 403 if and only if the user
    is not premium and already holds three papers or more; with fewer
    papers, or as a premium user, the answer is never 403. *)
Theorem upload_refused_iff_over_quota (w : world) (st st' : state) (user_id : Z)
    (files : gmap string FileStorage.t) (user : User.t) (r : response) :
  User_get st user_id = Some user ->
  upload_paper w user_id files st = (Ok r, st') ->
  status r = 403 <->
    User.is_premium user = false /\ 3 <= Z.of_nat (length (Paper_by_user st user_id)).
Proof.
  intros Huser Hrun. split.
  - intros H403. unfold upload_paper in Hrun.
    destruct (try_except_cases (upload_paper_try w user_id files) 500 st)
      as [(r' & st1 & Htry & Hrun')|(e & st1 & Htry & Hrun')];
      pose proof (eq_trans (eq_sym Hrun') Hrun) as Hsame;
      simplify_eq; try (cbn in H403; lia).
    apply upload_paper_try_ok in Htry.
    destruct Htry as [H|[H|[[H (u & Hu & Hfree & Hcount)]|[H|[H|[H|H]]]]]];
      try (rewrite H in H403; cbn in H403; lia).
    rewrite Huser in Hu. by simplify_eq.
  - intros [Hfree Hcount]. apply Z.leb_le in Hcount.
    unfold upload_paper, upload_paper_try in Hrun. monad_run.
    rewrite Huser, Hfree in Hrun. cbn in Hrun. rewrite Hcount in Hrun.
    by simplify_eq.
Qed.

Lemma upload_refused_iff_over_quota_witness :
  status (error_response QUOTA_MESSAGE 403) = 403 <->
    User.is_premium ann = false /\ 3 <= Z.of_nat (length (Paper_by_user (ann_store 3) 1)).
Proof.
  apply (upload_refused_iff_over_quota (quiet_world (Ok [])) (ann_store 3) (ann_store 3) 1
           ∅ ann (error_response QUOTA_MESSAGE 403)); reflexivity.
Defined.

(** ** Deleting a paper *)

(** The run of a deletion by the owner, for either outcome of the commit. *)
Lemma delete_paper_run (w : world) (st : state) (user_id paper_id : Z) (paper : Paper.t) :
  Paper_by_id_user st paper_id user_id = Some paper ->
  remove_error w = None ->
  delete_paper w user_id paper_id st =
    match commit_error w with
    | None =>
        (Ok (Response (JDict [("message", JStr "Paper deleted successfully")]) 200),
         State (users st)
               (filter (fun p => Paper.id p <> paper_id) (papers st))
               (delete (Paper.filepath paper) (disk st)) (gemini_calls st))
    | Some e =>
        (Ok (error_response (Py.str_of_exn e) 500),
         State (users st) (papers st)
               (delete (Paper.filepath paper) (disk st)) (gemini_calls st))
    end.
Proof.
  intros Hfound Hremove.
  assert (Hid : Paper.id paper = paper_id).
  { unfold Paper_by_id_user in Hfound. apply head_filter_Some in Hfound. tauto. }
  pose proof (Paper_first_found _ _ _ _ Hfound) as Hquery.
  unfold delete_paper, delete_paper_try, remove, drop_paper.
  unfold try_except. unfold mbind at 1, M_bind at 1. rewrite Hquery.
  monad_run.
  destruct (disk st !! Paper.filepath paper) as [content|] eqn:Hfile; cbn.
  - rewrite Hremove. cbn. destruct (commit_error w); cbn; by rewrite ?Hid.
  - rewrite (delete_id _ _ Hfile).
    destruct (commit_error w); cbn; rewrite ?Hid; by destruct st.
Qed.

(** X12: a deletion by the owner removes the row and the file.  When the
    disk and the commit do not fail it is answered with 200; afterwards no
    paper has that key, nothing is stored under the paper's path, every
    paper with another key is still there, and the single-paper view of
    that key, a key of sqlite and so of 64 bits, returns 404 to
    everybody. *)
Theorem delete_paper_removes (w w' : world) (st : state) (user_id paper_id : Z)
    (paper : Paper.t) :
  Paper_by_id_user st paper_id user_id = Some paper ->
  - 2 ^ 63 <= paper_id < 2 ^ 63 ->
  remove_error w = None ->
  commit_error w = None ->
  exists st',
    delete_paper w user_id paper_id st
      = (Ok (Response (JDict [("message", JStr "Paper deleted successfully")]) 200), st')
    /\ users st' = users st
    /\ (forall p, p ∈ papers st' <-> p ∈ papers st /\ Paper.id p <> paper_id)
    /\ disk st' !! Paper.filepath paper = None
    /\ (forall path, path <> Paper.filepath paper -> disk st' !! path = disk st !! path)
    /\ (forall who, get_paper w' who paper_id st'
          = (Ok (error_response "Paper not found" 404), st')).
Proof.
  intros Hfound Hrange Hremove Hcommit.
  eexists. split.
  { rewrite (delete_paper_run w st user_id paper_id paper Hfound Hremove), Hcommit.
    reflexivity. }
  cbn. split; [done|]. split; [|split; [|split]].
  - intros p. rewrite list_elem_of_filter. tauto.
  - apply lookup_delete_eq.
  - intros path Hpath. by apply lookup_delete_ne.
  - intros who. unfold get_paper, get_paper_try, try_except, mbind, M_bind.
    rewrite Paper_first_bindable by by apply bindable_fits.
    unfold Paper_by_id_user. cbn [papers].
    rewrite list_filter_filter.
    assert (Hnone : filter (fun p => (Paper.id p = paper_id /\ Paper.user_id p = who)
                                     /\ Paper.id p <> paper_id) (papers st) = []).
    { destruct (filter _ (papers st)) as [|p rest] eqn:Hrows; [done|].
      assert (Hp : p ∈ filter (fun p => (Paper.id p = paper_id /\ Paper.user_id p = who)
                                        /\ Paper.id p <> paper_id) (papers st))
        by (rewrite Hrows; left).
      apply list_elem_of_filter in Hp as [[[Hid _] Hne] _]. by destruct Hne. }
    by rewrite Hnone.
Qed.

Lemma delete_paper_removes_witness :
  exists st',
    delete_paper (quiet_world (Ok [])) 1 1 owl_store
      = (Ok (Response (JDict [("message", JStr "Paper deleted successfully")]) 200), st')
    /\ users st' = users owl_store
    /\ (forall p, p ∈ papers st' <-> p ∈ papers owl_store /\ Paper.id p <> 1)
    /\ disk st' !! Paper.filepath owl_paper = None
    /\ (forall path, path <> Paper.filepath owl_paper ->
          disk st' !! path = disk owl_store !! path)
    /\ (forall who, get_paper (quiet_world (Ok [])) who 1 st'
          = (Ok (error_response "Paper not found" 404), st')).
Proof.
  apply (delete_paper_removes (quiet_world (Ok [])) (quiet_world (Ok [])) owl_store 1 1
           owl_paper); try reflexivity.
  lia.
Defined.

(** X13: a deletion is not atomic over the file and the row.  The file
    is removed before the row is deleted and the commit comes last: when
    the commit fails, the answer is 500 with the text of the exception,
    the row is still in the table, and the file it points to is gone; the
    single-paper view keeps returning the paper. *)
Theorem delete_paper_commit_failure (w w' : world) (st : state) (user_id paper_id : Z)
    (paper : Paper.t) (e : exn) :
  Paper_by_id_user st paper_id user_id = Some paper ->
  remove_error w = None ->
  commit_error w = Some e ->
  exists st',
    delete_paper w user_id paper_id st = (Ok (error_response (Py.str_of_exn e) 500), st')
    /\ users st' = users st
    /\ papers st' = papers st
    /\ disk st' !! Paper.filepath paper = None
    /\ get_paper w' user_id paper_id st' = (Ok (Response (paper_json w' paper) 200), st').
Proof.
  intros Hfound Hremove Hcommit.
  eexists. split.
  { rewrite (delete_paper_run w st user_id paper_id paper Hfound Hremove), Hcommit.
    reflexivity. }
  cbn. split; [done|]. split; [done|]. split; [apply lookup_delete_eq|].
  unfold get_paper, get_paper_try, try_except, mbind, M_bind.
  by rewrite (Paper_first_found _ paper_id user_id paper).
Qed.

Lemma delete_paper_commit_failure_witness :
  exists st',
    delete_paper failing_commit 1 1 owl_store
      = (Ok (error_response "database is locked" 500), st')
    /\ users st' = users owl_store
    /\ papers st' = papers owl_store
    /\ disk st' !! Paper.filepath owl_paper = None
    /\ get_paper (quiet_world (Ok [])) 1 1 st'
       = (Ok (Response (paper_json (quiet_world (Ok [])) owl_paper) 200), st').
Proof.
  apply (delete_paper_commit_failure failing_commit (quiet_world (Ok [])) owl_store 1 1
           owl_paper (Exception "OperationalError" "database is locked")); reflexivity.
Defined.

(** ** Requests that only read *)

(** X14: a login, the profile, the listing, the single-paper view and
    the checkout never change anything: whatever they answer, in whatever
    world, the tables, the files and the trace of provider calls are after
    the request what they were before it. *)
Theorem reading_requests_change_nothing (w : world) (req : request) (st : state) :
  reads_only req = true -> snd (handle w req st) = st.
Proof.
  destruct req; cbn; try done; intros _.
  - unfold login, login_try, item. monad_run. repeat case_match; by simplify_eq.
  - unfold get_user, get_user_try. monad_run. repeat case_match; by simplify_eq.
  - unfold get_paper, get_paper_try, Paper_first_by_id_user. monad_run.
    repeat case_match; by simplify_eq.
  - unfold create_checkout_session, create_checkout_session_try. monad_run.
    repeat case_match; by simplify_eq.
Qed.

Lemma reading_requests_change_nothing_witness :
  snd (handle (quiet_world (Ok []))
         (Login {[ "email" := "ann@example.org"; "password" := "secret" ]}) owl_store)
    = owl_store.
Proof.
  apply (reading_requests_change_nothing (quiet_world (Ok []))
           (Login {[ "email" := "ann@example.org"; "password" := "secret" ]}) owl_store).
  reflexivity.
Defined.

(** ** The derived title, for ordinary filenames *)

Lemma prefix_dot_cons (c : ascii) (s t : string) :
  Ascii.eqb c "." = false -> String.prefix (String "." t) (String c s) = false.
Proof.
  intros Hc. cbn [String.prefix].
  destruct (ascii_dec "." c) as [<-|_]; [discriminate Hc|reflexivity].
Qed.

Lemma str_length_app (s t : string) :
  String.length (s +:+ t) = (String.length s + String.length t)%nat.
Proof. induction s as [|c s IH]; [done|]. rewrite str_app_cons. cbn. by rewrite IH. Qed.

Lemma substring_whole (t : string) : String.substring 0 (String.length t) t = t.
Proof. induction t as [|c t IH]; [done|]. cbn. by rewrite IH. Qed.

Lemma substring_app_r (s t : string) :
  String.substring (String.length s) (String.length t) (s +:+ t) = t.
Proof.
  induction s as [|c s IH].
  - change ("" +:+ t) with t. apply substring_whole.
  - rewrite str_app_cons. cbn. apply IH.
Qed.

(** [(s + t).endswith(t)] *)
Lemma endswith_app (s t : string) : Py.endswith (s +:+ t) t = true.
Proof.
  unfold Py.endswith. cbv zeta. rewrite str_length_app.
  replace (String.length s + String.length t - String.length t)%nat
    with (String.length s) by lia.
  rewrite substring_app_r, String.eqb_refl.
  apply andb_true_iff. split; [apply Nat.leb_le; lia|done].
Qed.

Lemma lower_app (s t : string) : Py.lower (s +:+ t) = Py.lower s +:+ Py.lower t.
Proof.
  induction s as [|c s IH]; [done|].
  rewrite str_app_cons. cbn. by rewrite IH.
Qed.

Lemma replace_pdf_stem (stem : string) :
  no_dot stem = true -> Py.replace (stem +:+ ".pdf") ".pdf" "" = stem.
Proof.
  unfold Py.replace. induction stem as [|c stem IH]; intros Hstem.
  - reflexivity.
  - cbn in Hstem. apply andb_true_iff in Hstem as [Hc Hstem].
    apply negb_true_iff in Hc.
    rewrite str_app_cons. cbn [Py.replace_from].
    rewrite (prefix_dot_cons c _ _ Hc). by rewrite (IH Hstem).
Qed.

(** X15: for a filename made of a stem without a dot and the suffix
    [.pdf], an upload that passes every check stores the stem as the
    title and the whole filename as the filename. *)
Theorem upload_title_is_stem (w : world) (st : state) (user_id : Z)
    (files : gmap string FileStorage.t) (user : User.t) (file : FileStorage.t)
    (stem : string) :
  User_get st user_id = Some user ->
  (User.is_premium user = true \/ Z.of_nat (length (Paper_by_user st user_id)) < 3) ->
  files !! "file" = Some file ->
  FileStorage.filename file = stem +:+ ".pdf" ->
  no_dot stem = true ->
  makedirs_error w = None ->
  save_error w (upload_path w user_id (FileStorage.filename file)) = None ->
  100 <= Py.len (extract_text_from_pdf w (FileStorage.stream file)) ->
  commit_error w = None ->
  exists paper,
    papers (snd (upload_paper w user_id files st)) = papers st ++ [paper]
    /\ Paper.title paper = stem
    /\ Paper.filename paper = stem +:+ ".pdf".
Proof.
  intros Huser Hquota Hfile Hname Hstem Hmk Hsave Hlong Hcommit.
  assert (Hne : FileStorage.filename file <> "").
  { rewrite Hname. destruct stem; discriminate. }
  assert (Hpdf : Py.endswith (Py.lower (FileStorage.filename file)) ".pdf" = true).
  { rewrite Hname, lower_app. apply endswith_app. }
  destruct (upload_paper_run w st user_id files user file
              Huser Hquota Hfile Hne Hpdf Hmk Hsave Hlong Hcommit)
    as (r & Hrun & _).
  eexists. rewrite Hrun. cbn. split; [reflexivity|].
  rewrite Hname. split; [|reflexivity]. by apply replace_pdf_stem.
Qed.

Lemma upload_title_is_stem_witness :
  exists paper,
    papers (snd (upload_paper readable_world 1 (upload_of "owls.pdf") (ann_store 0)))
      = papers (ann_store 0) ++ [paper]
    /\ Paper.title paper = "owls"
    /\ Paper.filename paper = "owls" +:+ ".pdf".
Proof.
  apply (upload_title_is_stem readable_world (ann_store 0) 1 (upload_of "owls.pdf") ann
           (FileStorage.mk "owls.pdf" []) "owls").
  - reflexivity.
  - right. vm_compute. reflexivity.
  - reflexivity.
  - reflexivity.
  - reflexivity.
  - reflexivity.
  - reflexivity.
  - vm_compute. discriminate.
  - reflexivity.
Defined.

(** ** The storage path, for ordinary filenames *)

Lemma all_plain_no_slash (s : string) : all_plain s = true -> no_slash s = true.
Proof.
  induction s as [|c s IH]; [done|]. cbn. intros Hs.
  apply andb_true_iff in Hs as [Hc Hs]. unfold plain in Hc.
  apply andb_true_iff in Hc as [Hc _]. by rewrite Hc, (IH Hs).
Qed.

Lemma no_slash_app (s t : string) :
  no_slash (s +:+ t) = (no_slash s && no_slash t)%bool.
Proof.
  induction s as [|c s IH]; [done|].
  rewrite str_app_cons. cbn. by rewrite IH, andb_assoc.
Qed.

Lemma split_no_slash (s : string) : no_slash s = true -> Posix.split s = [s].
Proof.
  induction s as [|c s IH]; [done|]. cbn. intros Hs.
  apply andb_true_iff in Hs as [Hc Hs]. apply negb_true_iff in Hc.
  by rewrite Hc, (IH Hs).
Qed.

(** X16: a filename without a separator stays in the upload directory.
    For every user, clock reading and filename that contains no [/], the
    path the upload is written to resolves to a file directly inside
    [uploads]. *)
Theorem upload_path_confined (w : world) (user_id : Z) (filename : string) :
  no_slash filename = true ->
  Posix.inside UPLOAD_FOLDER (upload_path w user_id filename) = true
  /\ Posix.normpath (upload_path w user_id filename)
     = ["uploads"; safe_filename w user_id filename].
Proof.
  intros Hname.
  assert (Hpath : Posix.normpath (upload_path w user_id filename)
                  = ["uploads"; safe_filename w user_id filename]).
  { rewrite upload_path_verbatim. unfold Posix.normpath, safe_filename.
    set (name := Py.str_of_int user_id +:+ "_" +:+ Py.str_of_int (unix_seconds w)
                   +:+ "_" +:+ filename).
    destruct (str_of_int_plain user_id) as [Hu Hne].
    destruct (str_of_int_plain (unix_seconds w)) as [Hs _].
    assert (Hns : no_slash name = true).
    { unfold name. rewrite !no_slash_app, Hname.
      by rewrite (all_plain_no_slash _ Hu), (all_plain_no_slash _ Hs). }
    assert (Hhead : exists c rest, name = String c rest /\ Ascii.eqb c "." = false).
    { unfold name. destruct (Py.str_of_int user_id) as [|c digits]; [done|].
      exists c, (digits +:+ "_" +:+ Py.str_of_int (unix_seconds w) +:+ "_" +:+ filename).
      split; [by rewrite str_app_cons|].
      cbn in Hu. apply andb_true_iff in Hu as [Hc _]. unfold plain in Hc.
      apply andb_true_iff in Hc as [_ Hc]. by apply negb_true_iff in Hc. }
    change ("uploads/" +:+ name) with ("uploads" +:+ "/" +:+ name).
    rewrite (split_plain "uploads") by reflexivity.
    rewrite (split_no_slash name Hns).
    destruct Hhead as (c & rest & Hname_eq & Hc). rewrite Hname_eq.
    cbn. rewrite Hc. reflexivity. }
  split; [|exact Hpath].
  unfold Posix.inside. rewrite Hpath. reflexivity.
Qed.

Lemma upload_path_confined_witness :
  Posix.inside UPLOAD_FOLDER (upload_path readable_world 1 "owls.v2.pdf") = true
  /\ Posix.normpath (upload_path readable_world 1 "owls.v2.pdf")
     = ["uploads"; safe_filename readable_world 1 "owls.v2.pdf"].
Proof.
  apply (upload_path_confined readable_world 1 "owls.v2.pdf"). reflexivity.
Defined.

Lemma numeral_uint (d : Decimal.uint) : numeral (NilEmpty.string_of_uint d) = true.
Proof. induction d; cbn; done. Qed.

Lemma str_of_int_numeral (n : Z) : numeral (Py.str_of_int n) = true.
Proof.
  unfold Py.str_of_int, NilZero.string_of_int, NilZero.string_of_uint.
  destruct (Z.to_int n) as [d|d]; destruct d; cbn; rewrite ?numeral_uint; done.
Qed.

(** [int(str(n)) == n]: the decimal text determines the integer. *)
Lemma str_of_int_inj (n m : Z) : Py.str_of_int n = Py.str_of_int m -> n = m.
Proof.
  assert (Hback : forall d,
            Z.of_int <$> NilZero.int_of_string (NilZero.string_of_int d) = Some (Z.of_int d)).
  { intros [u|u]; destruct u; try reflexivity; by rewrite NilZero.isi. }
  unfold Py.str_of_int. intros Heq.
  pose proof (Hback (Z.to_int n)) as Hn. pose proof (Hback (Z.to_int m)) as Hm.
  rewrite Heq, Hm in Hn. rewrite !DecimalZ.of_to in Hn. by simplify_eq.
Qed.

(** Two texts that start with a numeral followed by an underscore agree
    only if the numerals and the rests agree. *)
Lemma numeral_underscore_inj (a b x y : string) :
  numeral a = true -> numeral b = true ->
  a +:+ "_" +:+ x = b +:+ "_" +:+ y -> a = b /\ x = y.
Proof.
  revert b. induction a as [|c a IH]; intros [|d b] Ha Hb Heq.
  - by simplify_eq.
  - rewrite str_app_cons in Heq. change ("" +:+ "_" +:+ x) with (String "_" x) in Heq.
    injection Heq as <- _. cbn in Hb. done.
  - rewrite str_app_cons in Heq. change ("" +:+ "_" +:+ y) with (String "_" y) in Heq.
    injection Heq as -> _. cbn in Ha. done.
  - rewrite !str_app_cons in Heq. injection Heq as <- Heq.
    cbn in Ha, Hb.
    apply andb_true_iff in Ha as [_ Ha]. apply andb_true_iff in Hb as [_ Hb].
    destruct (IH b Ha Hb Heq) as [-> ->]. done.
Qed.

(** X17: the path determines what it was built from.  Two uploads are
    written to the same path only if they come from the same user, under
    the same filename, and with the same integer
    [int(datetime.utcnow().timestamp())] in the name.  That integer is
    what the host makes of the clock reading, through its local time: the
    same integer does not mean the same reading of the clock. *)
Theorem upload_path_inj (w w' : world) (user_id user_id' : Z) (filename filename' : string) :
  upload_path w user_id filename = upload_path w' user_id' filename' ->
  user_id = user_id' /\ unix_seconds w = unix_seconds w' /\ filename = filename'.
Proof.
  rewrite !upload_path_verbatim. intros Heq.
  apply (inj (String.append "uploads/")) in Heq.
  apply numeral_underscore_inj in Heq as [Hu Heq]; try apply str_of_int_numeral.
  apply numeral_underscore_inj in Heq as [Hs Hf]; try apply str_of_int_numeral.
  split; [by apply str_of_int_inj|]. split; [by apply str_of_int_inj|done].
Qed.

Lemma upload_path_inj_witness :
  1 = 1 /\ unix_seconds readable_world = unix_seconds (quiet_world (Ok []))
  /\ "owls.pdf" = "owls.pdf".
Proof.
  apply (upload_path_inj readable_world (quiet_world (Ok [])) 1 1 "owls.pdf" "owls.pdf").
  reflexivity.
Defined.

(** ** Failures and the tables *)

Lemma try_block_failure_keeps_tables (w : world) (req : request) (st st' : state)
    (o : outcome response) :
  try_block w req st = (o, st') ->
  match o with Ok r => 400 <= status r | Raise _ => True end ->
  users st' = users st /\ papers st' = papers st.
Proof.
  destruct req; cbn; intros Htry Hfail.
  - unfold signup_try, item, add_user in Htry. monad_run.
    repeat case_match; simplify_eq; try done; try (cbn in Hfail; lia).
  - unfold login_try, item in Htry. monad_run.
    repeat case_match; by simplify_eq.
  - unfold get_user_try in Htry. monad_run.
    repeat case_match; by simplify_eq.
  - unfold get_papers_try in Htry. monad_run. by simplify_eq.
  - unfold upload_paper_try, save, open_rb, add_paper in Htry. monad_run.
    repeat case_match; simplify_eq; try done;
      try match goal with
      | H : analyze_paper_with_ai _ _ _ = _ |- _ =>
          apply analyze_paper_with_ai_frame in H as (Hu & Hp & _); cbn in Hu, Hp
      end;
      try done; try (cbn in Hfail; lia).
  - unfold get_paper_try, Paper_first_by_id_user in Htry. monad_run.
    repeat case_match; by simplify_eq.
  - unfold delete_paper_try, Paper_first_by_id_user, remove, drop_paper in Htry.
    monad_run.
    repeat case_match; simplify_eq; try done; try (cbn in Hfail; lia).
  - unfold create_checkout_session_try in Htry. monad_run.
    repeat case_match; by simplify_eq.
Qed.

(** X18: a request that fails leaves both tables as they were.  Whatever
    the request and the world, when the answer has status 400 or above,
    be it a refusal of the handler or an exception caught by it, no user
    row and no paper row has been added, removed or changed. *)
Theorem failure_keeps_tables (w : world) (req : request) (st st' : state) (r : response) :
  handle w req st = (Ok r, st') ->
  400 <= status r ->
  users st' = users st /\ papers st' = papers st.
Proof.
  rewrite handle_try_except. intros Hrun Hfail.
  destruct (try_except_cases (try_block w req) (exception_status req) st)
    as [(r' & st1 & Htry & Hrun')|(e & st1 & Htry & Hrun')];
    rewrite Hrun' in Hrun; simplify_eq.
  - by apply (try_block_failure_keeps_tables w req st st' (Ok r)).
  - by apply (try_block_failure_keeps_tables w req st st' (Raise e)).
Qed.

Lemma failure_keeps_tables_witness :
  users (ann_store 0) = users (ann_store 0) /\ papers (ann_store 0) = papers (ann_store 0).
Proof.
  apply (failure_keeps_tables failing_commit
           (Signup {[ "email" := "bob@example.org"; "password" := "hunter2";
                      "name" := "Bob" ]})
           (ann_store 0) (ann_store 0) (error_response "database is locked" 500)).
  - reflexivity.
  - cbn. lia.
Defined.

(** ** The listing *)

(** X19: the listing never carries a summary of more than 203
    characters: 200 of the stored summary and the three dots. *)
Theorem listed_summaries_bounded (w : world) (user_id : Z) (st : state) :
  exists entries,
    get_papers w user_id st = (Ok (Response (JList entries) 200), st)
    /\ length entries = length (Paper_by_user st user_id)
    /\ forall entry s, entry ∈ entries ->
         json_field "summary" entry = Some (JStr s) -> Py.len s <= 203.
Proof.
  exists (map (paper_entry w) (Paper_by_user_newest_first st user_id)).
  split; [reflexivity|]. split.
  - rewrite length_map. unfold Paper_by_user_newest_first.
    apply Permutation_length, merge_sort_Permutation.
  - intros entry s Hentry Hs. apply elem_of_map in Hentry as (p & _ & <-).
    cbn in Hs. unfold list_summary in Hs.
    destruct (Paper.summary p) as [s0|]; [|done].
    destruct (Py.truthy s0 && (200 <? Py.len s0))%bool eqn:Hlong; cbn in Hs; simplify_eq.
    + unfold Py.len. rewrite str_length_app, slice_to_length.
      change (String.length "...") with 3%nat. lia.
    + apply andb_false_iff in Hlong as [Hempty|Hshort].
      * destruct s; [vm_compute; discriminate|done].
      * apply Z.ltb_ge in Hshort. lia.
Qed.

Lemma listed_summaries_bounded_witness :
  Py.len (Py.slice_to 200 owl_summary +:+ "...") <= 203.
Proof.
  destruct (listed_summaries_bounded (quiet_world (Ok [])) 1 owl_store)
    as (entries & Hrun & _ & Hbound).
  assert (Hin : paper_entry (quiet_world (Ok [])) owl_paper ∈ entries).
  { vm_compute in Hrun. injection Hrun as <-. right. left. }
  apply (Hbound _ _ Hin). reflexivity.
Defined.

(** ** The length of the extracted text *)

Lemma terminated_length (texts : list string) :
  Py.len (terminated texts) = fold_right (fun t acc => Py.len t + 1 + acc) 0 texts.
Proof.
  induction texts as [|t texts IH]; [done|].
  cbn [terminated fold_right]. rewrite <- IH. unfold Py.len.
  rewrite !str_length_app. change (String.length Py.nl) with 1%nat. lia.
Qed.

(** X20: the length that the upload compares with its threshold of 100
    counts one newline for every page that yields text: the extracted
    text has as many characters as the texts of those pages together,
    plus one for each of them, and none at all when the reader or a page
    raises. *)
Theorem extracted_length (w : world) (file : blob) :
  Py.len (extract_text_from_pdf w file) =
    match PdfReader w file with
    | Raise _ => 0
    | Ok pages =>
        match first_failure pages with
        | Some _ => 0
        | None => fold_right (fun t acc => Py.len t + 1 + acc) 0 (page_texts pages)
        end
    end.
Proof.
  unfold extract_text_from_pdf.
  destruct (PdfReader w file) as [pages|e]; [|done].
  rewrite extract_pages_acc.
  destruct (first_failure pages); [done|].
  change ("" +:+ terminated (page_texts pages)) with (terminated (page_texts pages)).
  apply terminated_length.
Qed.

(** ** The storage path and the directories of the disk (section 4.4, step 4) *)















(** The climbing upload run to its end: with the directory in place it is
    answered with 201 and the paper row points to the path outside the
    upload directory; on a fresh disk it is answered with 500 and the state
    is as it was. *)
Example climbing_upload_runs :
  (let run := upload_paper prepared_world 1 (upload_file climbing_filename [])
                (ann_store 0) in
   status <$> fst run = Ok 201
   /\ map Paper.filepath (papers (snd run)) = ["uploads/1_1700000000_/../../escape.pdf"])
  /\ upload_paper readable_world 1 (upload_file climbing_filename []) (ann_store 0)
     = (Ok (error_response
              "[Errno 2] No such file or directory: 'uploads/1_1700000000_/../../escape.pdf'"
              500), ann_store 0).
Proof. vm_compute. repeat split. Qed.
